(** * camel/chat_agent.py: [ChatAgent] and [TaskSpecifyAgent]

    A shallow embedding of the two agent classes of [camel/chat_agent.py]
    and the properties of their turn cycle: the token-budget fork of
    [step], the [tenacity] retry wrapper around it, the transcript
    invariant, [reset], and the template handling of [TaskSpecifyAgent].

    Python integers are [Z], Python strings are [string], lists are
    [list].  Methods mutate [self] and talk to the outside world (the
    completion service, [time.sleep]); they are written in a small
    state-and-exception monad over the object and a [World] that logs
    every request sent and every delay slept. *)

From Stdlib Require Import ZArith List String Ascii Bool Lia DecimalString.
Import ListNotations.

Local Open Scope string_scope.
Local Open Scope Z_scope.

(** ** Messages *)

(** Modelled from the spec: the role categories of [camel_typing.RoleType],
    which [chat_agent.py] imports; the two members it names. *)
Inductive RoleType := ASSISTANT | USER.

(** Modelled from the spec: the message classes of [camel_typing]
    ([SystemMessage], [ChatMessage], [UserChatMessage]), a role name, a
    role category, a conversational role and a textual content.  The
    attributes and their order are those of the call sites of
    [chat_agent.py]. *)
Module Msg.
Record t := mk {
  role_name : string;
  role_type : RoleType;
  role : string;
  content : string }.
End Msg.

(** Modelled from the spec: the constructor of [camel_typing.SystemMessage],
    called with a role name, a role category and a content; its role is
    the system role. *)
Definition SystemMessage (role_name : string) (role_type : RoleType)
    (content : string) : Msg.t :=
  Msg.mk role_name role_type "system" content.

(** Modelled from the spec: the constructor of [camel_typing.ChatMessage],
    called with all four attributes. *)
Definition ChatMessage (role_name : string) (role_type : RoleType)
    (role content : string) : Msg.t :=
  Msg.mk role_name role_type role content.

(** Modelled from the spec: the constructor of
    [camel_typing.UserChatMessage], a message of the user. *)
Definition UserChatMessage (role_name content : string) : Msg.t :=
  Msg.mk role_name USER "user" content.

(** Modelled from the spec: the wire format of one message, the role and
    content that the completion service takes and answers with. *)
Record OpenAIMessage := mkOpenAIMessage {
  oa_role : string;
  oa_content : string }.

(** Modelled from the spec: [to_openai_message] of the message classes of
    [camel_typing], the rendering of a message into the wire format. *)
Definition to_openai_message (m : Msg.t) : OpenAIMessage :=
  mkOpenAIMessage (Msg.role m) (Msg.content m).

(** ** The completion service's response

    The keys [step] reads: ["id"], ["usage"] and ["choices"] of the
    response, ["message"] and ["finish_reason"] of a choice. *)

Definition Usage := list (string * Z).

Record Choice := mkChoice {
  choice_message : OpenAIMessage;
  choice_finish_reason : option string }.

Record Response := mkResponse {
  response_id : string;
  response_usage : Usage;
  response_choices : list Choice }.

(** [str(choice["finish_reason"])]: a JSON null prints as [None]. *)
Definition str_finish_reason (r : option string) : string :=
  match r with
  | Some s => s
  | None => "None"
  end.

(** ** Exceptions and outcomes *)

Inductive Exn :=
| ServiceError (what : string)
| IndexError
| RuntimeError (msg : string)
| FileNotFoundError (path : string)
| ValueError
| RetryError (last_attempt : Exn).

Inductive Outcome (A : Type) :=
| Return (a : A)
| Raise (e : Exn).
Arguments Return {A} a.
Arguments Raise {A} e.

(** ** Python string operations used by [TaskSpecifyAgent] *)

(** [s.startswith(p)] *)
Fixpoint startswith (p s : string) {struct s} : bool :=
  match p, s with
  | EmptyString, _ => true
  | String _ _, EmptyString => false
  | String a p', String b s' => Ascii.eqb a b && startswith p' s'
  end.

(** [p in s] *)
Fixpoint contains (p s : string) : bool :=
  startswith p s ||
  match s with
  | EmptyString => false
  | String _ s' => contains p s'
  end.

(** [s.replace(old, new)] for a non-empty [old]: one scan from the left;
    where [old] starts, [new] is emitted and the scan jumps over the
    occurrence ([skip] counts the characters of it still to pass), so
    the occurrences replaced do not overlap. *)
Fixpoint replace_scan (old new : string) (skip : nat) (s : string) : string :=
  match s with
  | EmptyString => EmptyString
  | String c s' =>
      match skip with
      | S k => replace_scan old new k s'
      | O =>
          if startswith old s
          then new ++ replace_scan old new (Nat.pred (String.length old)) s'
          else String c (replace_scan old new O s')
      end
  end.

(** With an empty [old], Python puts [new] before every character and
    at the end. *)
Fixpoint replace_empty (new s : string) : string :=
  match s with
  | EmptyString => new
  | String c s' => new ++ String c (replace_empty new s')
  end.

Definition replace (old new s : string) : string :=
  match old with
  | EmptyString => replace_empty new s
  | String _ _ => replace_scan old new O s
  end.

(** The decimal print of an integer, with a minus sign when negative:
    what [str(n)] returns when it returns. *)
Definition decimal (n : Z) : string := NilZero.string_of_int (Z.to_int n).

(** The number of digits of the print, the sign not counted. *)
Definition decimal_digits (n : Z) : Z :=
  Z.of_nat (String.length (decimal (Z.abs n))).

(** [all(p(c) for c in s)] *)
Fixpoint all_chars (p : ascii -> bool) (s : string) : bool :=
  match s with
  | EmptyString => true
  | String c s' => p c && all_chars p s'
  end.

Definition not_lt (c : ascii) : bool := negb (Ascii.eqb c "<").

Definition not_five (c : ascii) : bool := negb (Ascii.eqb c "5").

(** Every [<] of [s] opens a [<TASK>] placeholder. *)
Fixpoint brackets_open_task (s : string) : bool :=
  match s with
  | EmptyString => true
  | String c s' =>
      (not_lt c || startswith "<TASK>" s) && brackets_open_task s'
  end.

(** ** Collaborators

    Everything [chat_agent.py] imports and does not define: the model
    enumeration and its token ceilings ([camel_typing], [camel_utils]),
    the tokenizer, the default generation configuration ([configs]), the
    remote completion endpoint and the file system.  The endpoint is a
    function of the number of requests already sent and of the request,
    so that any sequence of failures and answers can be described.
    [Config_truthy] is the truth value Python gives a configuration
    object ([bool(model_config)]).  [int_max_str_digits] is the
    interpreter's limit on the digits of an integer turned into a string
    ([sys.get_int_max_str_digits()]): 0 for no limit (as before the limit
    existed), and otherwise at least 640; CPython's default is 4300. *)
Class Env := {
  ModeType : Type;
  ModeType_value : ModeType -> string;
  Config : Type;
  ChatGPTConfig : Config;
  Config_truthy : Config -> bool;
  int_max_str_digits : Z;
  int_max_str_digits_valid :
    (int_max_str_digits =? 0) || (640 <=? int_max_str_digits) = true;
  get_model_token_limit : ModeType -> Z;
  num_tokens_from_messages : list OpenAIMessage -> ModeType -> Z;
  ChatCompletion_create :
    nat -> string -> list OpenAIMessage -> Config -> Exn + Response;
  read_file : string -> option string }.

Section Method.
Context {E : Env}.

(** One call of [openai.ChatCompletion.create(model=, messages=, **config)]. *)
Record Request := mkRequest {
  req_model : string;
  req_messages : list OpenAIMessage;
  req_config : Config }.

(** What the process has done to the outside: the requests sent, oldest
    first, and the delays slept between retry attempts. *)
Record World := mkWorld {
  calls : list Request;
  sleeps : list Z }.

Definition World0 : World := mkWorld [] [].

(** ** The method monad *)

Definition M (Obj A : Type) : Type := Obj -> World -> Outcome A * Obj * World.

Definition ret {Obj A} (a : A) : M Obj A := fun self w => (Return a, self, w).

Definition raise {Obj A} (e : Exn) : M Obj A := fun self w => (Raise e, self, w).

Definition bind {Obj A B} (m : M Obj A) (k : A -> M Obj B) : M Obj B :=
  fun self w =>
    match m self w with
    | (Return a, self', w') => k a self' w'
    | (Raise e, self', w') => (Raise e, self', w')
    end.

Definition get {Obj} : M Obj Obj := fun self w => (Return self, self, w).

Definition modify {Obj} (f : Obj -> Obj) : M Obj unit :=
  fun self w => (Return tt, f self, w).


End Method.

Notation "x <- m ;; k" := (bind m (fun x => k))
  (at level 61, m at next level, right associativity).
Notation "m ;;; k" := (bind m (fun _ => k))
  (at level 61, right associativity).

Section Agents.
Context {E : Env}.

(** [openai.ChatCompletion.create]: the request is logged, then the
    endpoint either raises or answers. *)
Definition openai_ChatCompletion_create {Obj} (model : string)
    (messages : list OpenAIMessage) (config : Config) : M Obj Response :=
  fun self w =>
    let w' := mkWorld (calls w ++ [mkRequest model messages config]) (sleeps w) in
    match ChatCompletion_create (List.length (calls w)) model messages config with
    | inl e => (Raise e, self, w')
    | inr response => (Return response, self, w')
    end.

Definition sleep (d : Z) (w : World) : World :=
  mkWorld (calls w) (sleeps w ++ [d]).

(** [tenacity.retry(wait=wait_fixed(d), stop=stop_after_attempt(n))]: run
    the method; when it raises, and attempts remain, sleep [d] and run it
    again on the object as the failed attempt left it; when none remain,
    raise [RetryError] around the last failure. *)
Fixpoint retry_loop {Obj A} (wait_fixed : Z) (more : nat) (f : M Obj A)
    (self : Obj) (w : World) {struct more} : Outcome A * Obj * World :=
  match f self w with
  | (Return a, self', w') => (Return a, self', w')
  | (Raise e, self', w') =>
      match more with
      | O => (Raise (RetryError e), self', w')
      | S k => retry_loop wait_fixed k f self' (sleep wait_fixed w')
      end
  end.

Definition retry {Obj A} (wait_fixed : Z) (stop_after_attempt : nat)
    (f : M Obj A) : M Obj A :=
  retry_loop wait_fixed (Nat.pred stop_after_attempt) f.

(** [xs[0]] *)
Definition first_item {Obj A} (xs : list A) : M Obj A :=
  match xs with
  | x :: _ => ret x
  | [] => raise IndexError
  end.

(** ** class ChatAgent *)

Record ChatAgent := mkChatAgent {
  system_message : Msg.t;
  role_name : string;
  role_type : RoleType;
  model : ModeType;
  model_config : Config;
  model_token_limit : Z;
  terminated : bool;
  stored_messages : list Msg.t }.

Definition set_terminated (b : bool) (self : ChatAgent) : ChatAgent :=
  mkChatAgent (system_message self) (role_name self) (role_type self)
    (model self) (model_config self) (model_token_limit self)
    b (stored_messages self).

Definition set_stored_messages (ms : list Msg.t) (self : ChatAgent)
    : ChatAgent :=
  mkChatAgent (system_message self) (role_name self) (role_type self)
    (model self) (model_config self) (model_token_limit self)
    (terminated self) ms.

Record Info := mkInfo {
  info_id : option string;
  info_usage : option Usage;
  info_finish_reasons : list string;
  info_num_tokens : Z }.

Definition get_info (id : option string) (usage : option Usage)
    (finish_reasons : list string) (num_tokens : Z) : Info :=
  mkInfo id usage finish_reasons num_tokens.

Definition init_messages : M ChatAgent unit :=
  modify (fun self => set_stored_messages [system_message self] self).

(** [x or y]: [x] when it is truthy, [y] otherwise; [None] is falsy. *)
Definition or_default (model_config : option Config) (default : Config)
    : Config :=
  match model_config with
  | Some c => if Config_truthy c then c else default
  | None => default
  end.

(** [str(n)] for an integer: [ValueError] when a limit is set and the
    print has more digits than it allows. *)
Definition str (n : Z) : Outcome string :=
  if (0 <? int_max_str_digits) && (int_max_str_digits <? decimal_digits n)
  then Raise ValueError
  else Return (decimal n).

(** [ChatAgent.__init__]; [model_config or ChatGPTConfig()]. *)
Definition ChatAgent_init (system_message : Msg.t) (model : ModeType)
    (model_config : option Config) : ChatAgent :=
  let self :=
    mkChatAgent system_message
      (Msg.role_name system_message) (Msg.role_type system_message)
      model
      (or_default model_config ChatGPTConfig)
      (get_model_token_limit model)
      false
      [] in
  snd (fst (init_messages self World0)).

Definition reset : M ChatAgent (list Msg.t) :=
  modify (set_terminated false) ;;;
  init_messages ;;;
  self <- get ;;
  ret (stored_messages self).

Definition update_messages (message : Msg.t) : M ChatAgent (list Msg.t) :=
  modify (fun self =>
    set_stored_messages (stored_messages self ++ [message]) self) ;;;
  self <- get ;;
  ret (stored_messages self).

(** The body of [step], before the decorator. *)
Definition step_body (input_message : Msg.t)
    : M ChatAgent (list Msg.t * bool * Info) :=
  messages <- update_messages input_message ;;
  let openai_messages := map to_openai_message messages in
  self <- get ;;
  let num_tokens := num_tokens_from_messages openai_messages (model self) in
  if num_tokens <? model_token_limit self then
    response <- openai_ChatCompletion_create
                  (ModeType_value (model self)) openai_messages
                  (model_config self) ;;
    let output_messages :=
      map (fun choice =>
             ChatMessage (role_name self) (role_type self)
               (oa_role (choice_message choice))
               (oa_content (choice_message choice)))
          (response_choices response) in
    let info :=
      get_info (Some (response_id response))
        (Some (response_usage response))
        (map (fun choice => str_finish_reason (choice_finish_reason choice))
           (response_choices response))
        num_tokens in
    first <- first_item output_messages ;;
    update_messages first ;;;
    self <- get ;;
    ret (output_messages, terminated self, info)
  else
    modify (set_terminated true) ;;;
    let output_messages := [] in
    let info := get_info None None ["max_tokens_exceeded"] num_tokens in
    self <- get ;;
    ret (output_messages, terminated self, info).

(** [@retry(wait=wait_fixed(60), stop=stop_after_attempt(5)) def step] *)
Definition step (input_message : Msg.t)
    : M ChatAgent (list Msg.t * bool * Info) :=
  retry 60 5 (step_body input_message).

(** The token count [step] computes for a turn: that of the transcript
    with the incoming message appended. *)
Definition turn_tokens (self : ChatAgent) (input_message : Msg.t) : Z :=
  num_tokens_from_messages
    (map to_openai_message (stored_messages self ++ [input_message]))
    (model self).

(** The request [step] sends for a turn. *)
Definition turn_request (self : ChatAgent) (input_message : Msg.t) : Request :=
  mkRequest (ModeType_value (model self))
    (map to_openai_message (stored_messages self ++ [input_message]))
    (model_config self).

(** The outgoing message [step] builds from one candidate. *)
Definition output_message (self : ChatAgent) (choice : Choice) : Msg.t :=
  ChatMessage (role_name self) (role_type self)
    (oa_role (choice_message choice)) (oa_content (choice_message choice)).

(** The attributes no method assigns after construction. *)
Definition same_setup (a a' : ChatAgent) : Prop :=
  system_message a' = system_message a /\
  role_name a' = role_name a /\
  role_type a' = role_type a /\
  model a' = model a /\
  model_config a' = model_config a /\
  model_token_limit a' = model_token_limit a.

(** The operations a caller can apply to a [ChatAgent], and the state
    each leaves behind, whether it returned or raised. *)
Inductive Op :=
| OpStep (input_message : Msg.t)
| OpUpdateMessages (message : Msg.t)
| OpReset.

Definition after {Obj A} (r : Outcome A * Obj * World) : Obj * World :=
  (snd (fst r), snd r).

Definition apply_op (op : Op) (st : ChatAgent * World) : ChatAgent * World :=
  match op with
  | OpStep m => after (step m (fst st) (snd st))
  | OpUpdateMessages m => after (update_messages m (fst st) (snd st))
  | OpReset => after (reset (fst st) (snd st))
  end.

Definition apply_ops (ops : list Op) (st : ChatAgent * World)
    : ChatAgent * World :=
  fold_left (fun st op => apply_op op st) ops st.

(** ** class TaskSpecifyAgent(ChatAgent) *)

Record TaskSpecifyAgent := mkTaskSpecifyAgent {
  super : ChatAgent;
  task_specify_prompt : string }.

Definition set_super (a : ChatAgent) (self : TaskSpecifyAgent)
    : TaskSpecifyAgent :=
  mkTaskSpecifyAgent a (task_specify_prompt self).

Definition set_task_specify_prompt (p : string) (self : TaskSpecifyAgent)
    : TaskSpecifyAgent :=
  mkTaskSpecifyAgent (super self) p.

(** An inherited method runs on the [ChatAgent] part of the object. *)
Definition inherited {A} (m : M ChatAgent A) : M TaskSpecifyAgent A :=
  fun self w =>
    match m (super self) w with
    | (r, a, w') => (r, set_super a self, w')
    end.

Definition default_task_specify_prompt_path : string :=
  "prompts/task_specify_prompt.txt".

Definition default_word_limit : Z := 50.

Definition task_specifier_system_message : Msg.t :=
  SystemMessage "task_specifier" ASSISTANT
    "You can specify a task for the assistant to perform.".

(** [TaskSpecifyAgent.__init__]; opening a file that is not there raises,
    and so does [str(word_limit)], evaluated once the file is read. *)
Definition TaskSpecifyAgent_init (model : ModeType)
    (model_config : option Config) (task_specify_prompt : option string)
    (task_specify_prompt_path : string) (word_limit : Z)
    : Outcome TaskSpecifyAgent :=
  let construct prompt :=
    Return (mkTaskSpecifyAgent
              (ChatAgent_init task_specifier_system_message model model_config)
              prompt) in
  match task_specify_prompt with
  | None =>
      match read_file task_specify_prompt_path with
      | Some text =>
          match str word_limit with
          | Return limit => construct (replace "<WORD_LIMIT>" limit text)
          | Raise e => Raise e
          end
      | None => Raise (FileNotFoundError task_specify_prompt_path)
      end
  | Some prompt => construct prompt
  end.

Definition specify_task (original_task_prompt : string)
    : M TaskSpecifyAgent string :=
  inherited reset ;;;
  modify (fun self =>
    set_task_specify_prompt
      (replace "<TASK>" original_task_prompt (task_specify_prompt self))
      self) ;;;
  self <- get ;;
  let task_msg :=
    UserChatMessage "task_specifier" (task_specify_prompt self) in
  result <- inherited (step task_msg) ;;
  let '(specified_task_msgs, terminated, _) := result in
  specified_task_msg <- first_item specified_task_msgs ;;
  if terminated : bool
  then raise (RuntimeError "Task specification failed.")
  else ret (Msg.content specified_task_msg).

(** The message [specify_task] sends for a task, and the token count of
    its single turn (the transcript is the system message and that
    message, [specify_task] having reset the agent). *)
Definition task_message (self : TaskSpecifyAgent) (task : string) : Msg.t :=
  UserChatMessage "task_specifier"
    (replace "<TASK>" task (task_specify_prompt self)).

Definition specify_task_tokens (self : TaskSpecifyAgent) (task : string) : Z :=
  num_tokens_from_messages
    (map to_openai_message
       [system_message (super self); task_message self task])
    (model (super self)).

(** A request that names the agent's model, carries its configuration
    and starts with its system message. *)
Definition request_of (a : ChatAgent) (r : Request) : Prop :=
  req_model r = ModeType_value (model a) /\
  req_config r = model_config a /\
  hd_error (req_messages r) = Some (to_openai_message (system_message a)).

(** [str(role_type)]: a member of the enumeration prints as its
    qualified name, as the assertion on [str(assistant)] at the end of
    [chat_agent.py] has it. *)
Definition str_RoleType (r : RoleType) : string :=
  match r with
  | ASSISTANT => "RoleType.ASSISTANT"
  | USER => "RoleType.USER"
  end.

(** [ChatAgent.__repr__]; [str_model] prints a member of the model
    enumeration. *)
Definition ChatAgent_repr (str_model : ModeType -> string)
    (self : ChatAgent) : string :=
  "ChatAgent(" ++ role_name self ++ ", " ++ str_RoleType (role_type self)
    ++ ", " ++ str_model (model self) ++ ")".

End Agents.

(** ** Concrete collaborators, for running the methods *)

Inductive DemoModel := GPT_3_5_TURBO.

(** A tokenizer that counts one token per character of content. *)
Definition count_characters (ms : list OpenAIMessage) (_ : DemoModel) : Z :=
  fold_right (fun m n => Z.of_nat (String.length (oa_content m)) + n) 0 ms.

Definition demo_env (limit : Z)
    (service : nat -> list OpenAIMessage -> Exn + Response)
    (files : string -> option string) : Env :=
  {| ModeType := DemoModel;
     ModeType_value := fun _ => "gpt-3.5-turbo";
     Config := list (string * Z);
     ChatGPTConfig := [("n", 1)];
     Config_truthy := fun c => match c with [] => false | _ :: _ => true end;
     int_max_str_digits := 4300;
     int_max_str_digits_valid := eq_refl;
     get_model_token_limit := fun _ => limit;
     num_tokens_from_messages := count_characters;
     ChatCompletion_create := fun k _ messages _ => service k messages;
     read_file := files |}.

Definition reply (text : string) : Choice :=
  mkChoice (mkOpenAIMessage "assistant" text) (Some "stop").

(** A service that always answers with one candidate. *)
Definition service_up (k : nat) (_ : list OpenAIMessage) : Exn + Response :=
  inr (mkResponse "chatcmpl-1" [("total_tokens", 9)] [reply "Hi."]).

(** A service that answers with two candidates. *)
Definition service_two (k : nat) (_ : list OpenAIMessage) : Exn + Response :=
  inr (mkResponse "chatcmpl-2" [("total_tokens", 12)]
         [reply "Hi."; mkChoice (mkOpenAIMessage "assistant" "Hello.") None]).

(** A service whose first answer is a rate-limit failure. *)
Definition service_flaky (k : nat) (ms : list OpenAIMessage) : Exn + Response :=
  match k with
  | O => inl (ServiceError "RateLimitError")
  | _ => service_up k ms
  end.

(** A service that never answers. *)
Definition service_down (k : nat) (_ : list OpenAIMessage) : Exn + Response :=
  inl (ServiceError "APIConnectionError").

Definition no_files (_ : string) : option string := None.

Definition prompt_file (path : string) : option string :=
  if String.eqb path "prompts/task_specify_prompt.txt"
  then Some "Task: <TASK>. Reply in <WORD_LIMIT> words."
  else None.

Definition doctor : Msg.t :=
  SystemMessage "doctor" ASSISTANT "You are a doctor.".

Definition hello : Msg.t := ChatMessage "patient" USER "user" "Hello!".

Definition long_task : string := "Developing custom game mods or plugins".

(** Environments and agents the statements below are run on. *)
Definition env_tight : Env := demo_env 10 service_up no_files.
Definition env_roomy : Env := demo_env 100 service_up no_files.
Definition env_two : Env := demo_env 100 service_two no_files.
Definition env_flaky : Env := demo_env 100 service_flaky no_files.
Definition env_down : Env := demo_env 100 service_down no_files.
Definition env_file : Env := demo_env 100 service_up prompt_file.

Definition doctor_agent (E : Env) (model : @ModeType E) : @ChatAgent E :=
  ChatAgent_init doctor model None.

Definition specifier (E : Env) (model : @ModeType E) (template : string)
    : @TaskSpecifyAgent E :=
  mkTaskSpecifyAgent
    (ChatAgent_init task_specifier_system_message model None) template.

(** A service that answers without any candidate. *)
Definition service_empty (k : nat) (_ : list OpenAIMessage) : Exn + Response :=
  inr (mkResponse "chatcmpl-0" [("total_tokens", 0)] []).

Definition env_empty : Env := demo_env 100 service_empty no_files.

(** A template without placeholder. *)
Definition plain_template : string := "Make the task more specific.".

Definition str_DemoModel (m : DemoModel) : string :=
  match m with
  | GPT_3_5_TURBO => "ModeType.GPT_3_5_TURBO"
  end.

(** The characters the print of an integer is made of. *)
Definition digit_or_minus (c : ascii) : bool :=
  existsb (Ascii.eqb c)
    ["0"; "1"; "2"; "3"; "4"; "5"; "6"; "7"; "8"; "9"; "-"]%char.

(** * Properties *)

Local Open Scope list_scope.

Section ChatAgentProperties.
Context {E : Env}.

(** ** One attempt of [step] *)

Lemma step_body_over (m : Msg.t) (a : ChatAgent) (w : World) :
  model_token_limit a <= turn_tokens a m ->
  step_body m a w =
    (Return ([], true,
             get_info None None ["max_tokens_exceeded"] (turn_tokens a m)),
     set_terminated true (set_stored_messages (stored_messages a ++ [m]) a),
     w).
Proof.
  intros Hge. apply Z.ltb_ge in Hge.
  unfold turn_tokens in Hge.
  unfold step_body, bind, update_messages, bind, modify, get, ret; simpl.
  rewrite Hge. reflexivity.
Qed.

Lemma step_body_raises (m : Msg.t) (a : ChatAgent) (w : World) (e : Exn) :
  turn_tokens a m < model_token_limit a ->
  ChatCompletion_create (List.length (calls w)) (ModeType_value (model a))
    (map to_openai_message (stored_messages a ++ [m])) (model_config a)
    = inl e ->
  step_body m a w =
    (Raise e,
     set_stored_messages (stored_messages a ++ [m]) a,
     mkWorld (calls w ++ [turn_request a m]) (sleeps w)).
Proof.
  intros Hlt Hcall. apply Z.ltb_lt in Hlt.
  unfold turn_tokens in Hlt.
  unfold step_body, bind, update_messages, bind, modify, get, ret,
    openai_ChatCompletion_create; simpl.
  rewrite Hlt, Hcall. reflexivity.
Qed.

Lemma step_body_answers (m : Msg.t) (a : ChatAgent) (w : World)
    (response : Response) :
  turn_tokens a m < model_token_limit a ->
  ChatCompletion_create (List.length (calls w)) (ModeType_value (model a))
    (map to_openai_message (stored_messages a ++ [m])) (model_config a)
    = inr response ->
  step_body m a w =
    match response_choices response with
    | [] =>
        (Raise IndexError,
         set_stored_messages (stored_messages a ++ [m]) a,
         mkWorld (calls w ++ [turn_request a m]) (sleeps w))
    | c :: _ =>
        (Return (map (output_message a) (response_choices response),
                 terminated a,
                 get_info (Some (response_id response))
                   (Some (response_usage response))
                   (map (fun choice =>
                           str_finish_reason (choice_finish_reason choice))
                      (response_choices response))
                   (turn_tokens a m)),
         set_stored_messages
           (stored_messages a ++ [m; output_message a c]) a,
         mkWorld (calls w ++ [turn_request a m]) (sleeps w))
    end.
Proof.
  intros Hlt Hcall. apply Z.ltb_lt in Hlt.
  unfold turn_tokens in Hlt.
  unfold step_body, bind, update_messages, bind, modify, get, ret,
    openai_ChatCompletion_create; simpl.
  rewrite Hlt, Hcall.
  destruct (response_choices response) as [|c cs]; simpl.
  - reflexivity.
  - unfold set_stored_messages; simpl. rewrite <- app_assoc. reflexivity.
Qed.

(** The three ways one attempt can end: over budget, the service call
    (or the indexing of an empty candidate list) raising, or an answer. *)
Lemma step_body_cases (m : Msg.t) (a : ChatAgent) (w : World) :
  (model_token_limit a <= turn_tokens a m /\
   step_body m a w =
     (Return ([], true,
              get_info None None ["max_tokens_exceeded"] (turn_tokens a m)),
      set_terminated true (set_stored_messages (stored_messages a ++ [m]) a),
      w)) \/
  (turn_tokens a m < model_token_limit a /\
   exists e,
     step_body m a w =
       (Raise e,
        set_stored_messages (stored_messages a ++ [m]) a,
        mkWorld (calls w ++ [turn_request a m]) (sleeps w))) \/
  (turn_tokens a m < model_token_limit a /\
   exists response c cs,
     response_choices response = c :: cs /\
     step_body m a w =
       (Return (map (output_message a) (c :: cs), terminated a,
                get_info (Some (response_id response))
                  (Some (response_usage response))
                  (map (fun choice =>
                          str_finish_reason (choice_finish_reason choice))
                     (c :: cs))
                  (turn_tokens a m)),
        set_stored_messages
          (stored_messages a ++ [m; output_message a c]) a,
        mkWorld (calls w ++ [turn_request a m]) (sleeps w))).
Proof.
  destruct (Z_lt_le_dec (turn_tokens a m) (model_token_limit a)) as [Hlt|Hge].
  - right.
    destruct (ChatCompletion_create (List.length (calls w))
                (ModeType_value (model a))
                (map to_openai_message (stored_messages a ++ [m]))
                (model_config a)) as [e|response] eqn:Hcall.
    + left. split; [assumption|]. exists e.
      now apply step_body_raises.
    + pose proof (step_body_answers m a w response Hlt Hcall) as Hs.
      destruct (response_choices response) as [|c cs] eqn:Hcs.
      * left. split; [assumption|]. now exists IndexError.
      * right. split; [assumption|]. exists response, c, cs.
        rewrite Hcs. now split.
  - left. split; [assumption|]. now apply step_body_over.
Qed.

(** Splits a goal about one attempt into those three, with the result of
    the attempt rewritten in it; [c] names the first candidate. *)
Ltac attempt_cases m a w H c :=
  destruct (step_body_cases m a w)
    as [[_ H]|[[_ [? H]]|[_ (? & c & ? & _ & H)]]];
  rewrite H.

(** ** What [reset], [update_messages] and [step] leave untouched *)

Lemma same_setup_refl (a : ChatAgent) : same_setup a a.
Proof. repeat split. Qed.

Lemma same_setup_trans (a b c : ChatAgent) :
  same_setup a b -> same_setup b c -> same_setup a c.
Proof.
  unfold same_setup. intros (?&?&?&?&?&?) (?&?&?&?&?&?).
  repeat split; congruence.
Qed.

Lemma step_body_extends (m : Msg.t) (a : ChatAgent) (w : World) :
  same_setup a (snd (fst (step_body m a w))) /\
  exists tl,
    stored_messages (snd (fst (step_body m a w))) =
      stored_messages a ++ m :: tl.
Proof.
  attempt_cases m a w H c; simpl; (split; [now repeat split|]).
  - now exists [].
  - now exists [].
  - now exists [output_message a c].
Qed.

Lemma retry_loop_step_extends (k : nat) (m : Msg.t) (a : ChatAgent)
    (w : World) :
  same_setup a (snd (fst (retry_loop 60 k (step_body m) a w))) /\
  exists tl,
    stored_messages (snd (fst (retry_loop 60 k (step_body m) a w))) =
      stored_messages a ++ m :: tl.
Proof.
  revert a w. induction k as [|k IH]; intros a w; cbn [retry_loop];
    pose proof (step_body_extends m a w) as [Hs [tl Htl]];
    destruct (step_body m a w) as [[[r|e] a1] w1]; simpl in *;
    try (split; [assumption|now exists tl]).
  destruct (IH a1 (sleep 60 w1)) as [Hs' [tl' Htl']].
  split.
  - eapply same_setup_trans; eassumption.
  - rewrite Htl', Htl, <- app_assoc. simpl. now eexists.
Qed.

(** ** The budget fork of [step] *)

(** [step] on a turn over budget, and on a turn under budget that the
    service answers: the first attempt returns. *)
Lemma step_over (m : Msg.t) (a : ChatAgent) (w : World) :
  model_token_limit a <= turn_tokens a m ->
  step m a w =
    (Return ([], true,
             get_info None None ["max_tokens_exceeded"] (turn_tokens a m)),
     set_terminated true (set_stored_messages (stored_messages a ++ [m]) a),
     w).
Proof.
  intros Hge. unfold step, retry. cbn [Nat.pred retry_loop].
  now rewrite (step_body_over m a w Hge).
Qed.

(** C1.  A turn whose token count reaches the model's ceiling returns at
    the first attempt: no request is sent and nothing is slept (the world
    is unchanged), the agent is terminated, no message is produced, and
    the metadata has no identifier, no usage, the single finish reason
    [max_tokens_exceeded] and the computed token count. *)
Theorem step_over_budget (m : Msg.t) (a : ChatAgent) (w : World) :
  model_token_limit a <= turn_tokens a m ->
  exists a',
    step m a w =
      (Return ([], true,
               {| info_id := None;
                  info_usage := None;
                  info_finish_reasons := ["max_tokens_exceeded"];
                  info_num_tokens := turn_tokens a m |}),
       a', w) /\
    terminated a' = true /\
    stored_messages a' = stored_messages a ++ [m] /\
    same_setup a a'.
Proof.
  intros Hge.
  exists (set_terminated true
            (set_stored_messages (stored_messages a ++ [m]) a)).
  rewrite (step_over m a w Hge).
  repeat split.
Qed.

(** C2.  A turn whose token count is below the ceiling, and whose request
    the service answers with at least one candidate, sends exactly that
    one request, carrying the rendered transcript with the incoming
    message; it returns one message per candidate, each under the agent's
    role name and role type; the transcript gains the incoming message and
    the first candidate only; the flag returned is the agent's flag from
    before the call; the metadata carries the response's identifier and
    usage, one finish reason per candidate and the computed count. *)
Theorem step_under_budget (m : Msg.t) (a : ChatAgent) (w : World)
    (response : Response) (c : Choice) (cs : list Choice) :
  turn_tokens a m < model_token_limit a ->
  ChatCompletion_create (List.length (calls w)) (ModeType_value (model a))
    (map to_openai_message (stored_messages a ++ [m])) (model_config a)
    = inr response ->
  response_choices response = c :: cs ->
  exists outputs info a' w',
    step m a w = (Return (outputs, terminated a, info), a', w') /\
    calls w' =
      calls w ++
      [mkRequest (ModeType_value (model a))
         (map to_openai_message (stored_messages a ++ [m]))
         (model_config a)] /\
    sleeps w' = sleeps w /\
    outputs = map (output_message a) (c :: cs) /\
    List.length outputs = List.length (response_choices response) /\
    Forall (fun o => Msg.role_name o = role_name a /\
                     Msg.role_type o = role_type a) outputs /\
    stored_messages a' = stored_messages a ++ [m; output_message a c] /\
    terminated a' = terminated a /\
    same_setup a a' /\
    info_id info = Some (response_id response) /\
    info_usage info = Some (response_usage response) /\
    info_finish_reasons info =
      map (fun choice => str_finish_reason (choice_finish_reason choice))
        (c :: cs) /\
    List.length (info_finish_reasons info) = List.length (c :: cs) /\
    info_num_tokens info = turn_tokens a m.
Proof.
  intros Hlt Hcall Hcs.
  pose proof (step_body_answers m a w response Hlt Hcall) as Hs.
  rewrite Hcs in Hs.
  do 4 eexists.
  unfold step, retry. cbn [Nat.pred retry_loop]. rewrite Hs.
  split; [reflexivity|]. simpl.
  repeat split; try reflexivity.
  - rewrite Hcs. simpl. now rewrite length_map.
  - constructor; [now split|].
    apply Forall_forall. intros o Ho. apply in_map_iff in Ho.
    destruct Ho as [x [<- _]]. now split.
  - now rewrite length_map.
Qed.

(** ** Construction and [reset] *)

(** C7.  A freshly constructed agent, of either class, is not terminated
    and its transcript is the system message alone; [reset] puts any
    agent into that state, returns that one-element transcript, and
    leaves the world as it was (no request, no delay). *)
Theorem fresh_or_reset_agent :
  (forall sm model cfg,
     terminated (ChatAgent_init sm model cfg) = false /\
     stored_messages (ChatAgent_init sm model cfg) = [sm] /\
     system_message (ChatAgent_init sm model cfg) = sm) /\
  (forall model cfg prompt path word_limit t,
     TaskSpecifyAgent_init model cfg prompt path word_limit = Return t ->
     terminated (super t) = false /\
     stored_messages (super t) = [task_specifier_system_message] /\
     system_message (super t) = task_specifier_system_message) /\
  (forall (a : ChatAgent) (w : World),
     exists a',
       reset a w = (Return [system_message a], a', w) /\
       terminated a' = false /\
       stored_messages a' = [system_message a] /\
       same_setup a a').
Proof.
  split; [|split].
  - intros. repeat split.
  - intros model cfg prompt path word_limit t.
    unfold TaskSpecifyAgent_init.
    destruct prompt as [p|];
      [|destruct (read_file path); [destruct (str word_limit)|]];
      intros H; inversion H; subst; repeat split.
  - intros a w. eexists. split; [reflexivity|]. repeat split.
Qed.

(** C9.  [reset] is idempotent.  The first [reset] returns the
    one-element transcript of the system message and leaves an agent
    whose transcript is that one element, whose flag is cleared and
    whose setup is untouched; a second [reset] returns the same
    transcript and leaves that very state. *)
Theorem reset_idempotent (a : ChatAgent) (w : World) :
  exists a1,
    reset a w = (Return [system_message a], a1, w) /\
    stored_messages a1 = [system_message a] /\
    terminated a1 = false /\
    same_setup a a1 /\
    reset a1 w = (Return (stored_messages a1), a1, w).
Proof.
  exists (set_stored_messages [system_message a] (set_terminated false a)).
  split; [reflexivity|]. split; [reflexivity|]. split; [reflexivity|].
  split; [now repeat split|reflexivity].
Qed.

(** ** The transcript invariant *)

Lemma apply_op_keeps_head (op : Op) (a : ChatAgent) (w : World) :
  (exists tl, stored_messages a = system_message a :: tl) ->
  system_message (fst (apply_op op (a, w))) = system_message a /\
  exists tl,
    stored_messages (fst (apply_op op (a, w))) = system_message a :: tl.
Proof.
  intros [tl Htl]. destruct op as [m|m|]; simpl.
  - unfold step, retry. cbn [Nat.pred].
    destruct (retry_loop_step_extends 4 m a w) as [Hs [tl' Htl']].
    split; [apply Hs|].
    rewrite Htl', Htl. simpl. now eexists.
  - split; [reflexivity|]. rewrite Htl. simpl. now eexists.
  - split; [reflexivity|]. now exists [].
Qed.

(** C8.  In every state reached from construction by [step],
    [update_messages] and [reset], in any order and whatever [step]
    returned or raised, the transcript's first message is the system
    message the agent was constructed with.  [step] and
    [update_messages] only append to the transcript; [reset] replaces it
    by the system message alone. *)
Theorem system_message_stays_first :
  (forall sm model cfg (ops : list Op) (w : World),
     system_message
       (fst (apply_ops ops (ChatAgent_init sm model cfg, w))) = sm /\
     nth_error
       (stored_messages
          (fst (apply_ops ops (ChatAgent_init sm model cfg, w)))) 0
       = Some sm) /\
  (forall m (a : ChatAgent) (w : World),
     exists tl,
       stored_messages (fst (apply_op (OpStep m) (a, w))) =
         stored_messages a ++ m :: tl) /\
  (forall m (a : ChatAgent) (w : World),
     stored_messages (fst (apply_op (OpUpdateMessages m) (a, w))) =
       stored_messages a ++ [m]) /\
  (forall (a : ChatAgent) (w : World),
     stored_messages (fst (apply_op OpReset (a, w))) = [system_message a]).
Proof.
  split; [|split; [|split]].
  - intros sm model cfg ops w.
    assert (Hgen : forall ops (st : ChatAgent * World),
               (exists tl, stored_messages (fst st) =
                             system_message (fst st) :: tl) ->
               system_message (fst (apply_ops ops st)) =
                 system_message (fst st) /\
               exists tl, stored_messages (fst (apply_ops ops st)) =
                            system_message (fst st) :: tl).
    { clear. induction ops as [|op ops IH]; intros [a w] Hinv.
      - simpl. now split.
      - unfold apply_ops in *. cbn [fold_left].
        destruct (apply_op_keeps_head op a w Hinv) as [Hsm Hhd].
        destruct (apply_op op (a, w)) as [a1 w1]. simpl in Hsm, Hhd.
        destruct (IH (a1, w1)) as [Hsm' [tl Htl]].
        { simpl. now rewrite Hsm. }
        simpl in *. split; [congruence|].
        exists tl. now rewrite Htl, Hsm. }
    destruct (Hgen ops (ChatAgent_init sm model cfg, w)) as [Hsm [tl Htl]].
    { now exists []. }
    simpl in Hsm, Htl. split; [exact Hsm|]. now rewrite Htl.
  - intros m a w. simpl. unfold step, retry. cbn [Nat.pred].
    apply (retry_loop_step_extends 4 m a w).
  - reflexivity.
  - reflexivity.
Qed.

(** ** The terminated flag *)

Lemma retry_loop_step_flag (k : nat) (m : Msg.t) (a : ChatAgent)
    (w : World) :
  (terminated a = true ->
   terminated (snd (fst (retry_loop 60 k (step_body m) a w))) = true) /\
  (forall ms flag info,
     fst (fst (retry_loop 60 k (step_body m) a w)) = Return (ms, flag, info) ->
     flag = terminated (snd (fst (retry_loop 60 k (step_body m) a w)))) /\
  (terminated a = false ->
   forall ms info,
     fst (fst (retry_loop 60 k (step_body m) a w)) = Return (ms, true, info) ->
     ms = []).
Proof.
  revert a w. induction k as [|k IH]; intros a w; cbn [retry_loop];
    attempt_cases m a w H c; simpl;
    try (repeat split; intros; congruence).
  apply (IH (set_stored_messages (stored_messages a ++ [m]) a)).
Qed.

(** C10.  [step] never clears the flag: on a terminated agent it leaves
    the flag set whatever happens, and when it returns (also from a
    turn under budget that the service answered) the flag it returns is
    [true]; so the flag stays set along any sequence of [step] calls.
    [update_messages] leaves the flag alone, and [reset] clears it. *)
Theorem terminated_monotone_under_step (a : ChatAgent) (w : World) :
  terminated a = true ->
  (forall m,
     terminated (snd (fst (step m a w))) = true /\
     forall ms flag info,
       fst (fst (step m a w)) = Return (ms, flag, info) -> flag = true) /\
  (forall inputs,
     terminated (fst (apply_ops (map OpStep inputs) (a, w))) = true) /\
  (forall m, terminated (snd (fst (update_messages m a w))) = true) /\
  terminated (snd (fst (reset a w))) = false.
Proof.
  intros Hterm. split; [|split; [|split]].
  - intros m. unfold step, retry. cbn [Nat.pred].
    destruct (retry_loop_step_flag 4 m a w) as [H1 [H2 _]].
    split; [now apply H1|].
    intros ms flag info Hret. rewrite (H2 _ _ _ Hret). now apply H1.
  - intros inputs. revert a w Hterm.
    induction inputs as [|m inputs IH]; intros a w Hterm; [exact Hterm|].
    unfold apply_ops in *. cbn [map fold_left].
    destruct (apply_op (OpStep m) (a, w)) as [a1 w1] eqn:Hop.
    apply IH.
    change a1 with (fst (a1, w1)). rewrite <- Hop. simpl.
    unfold step, retry. cbn [Nat.pred].
    now apply (retry_loop_step_flag 4 m a w).
  - reflexivity || (intros m; exact Hterm).
  - reflexivity.
Qed.

(** ** The retry wrapper *)

(** What the wrapper raises is always a [RetryError]. *)
Lemma retry_loop_raises_RetryError {Obj A} (d : Z) (k : nat) (f : M Obj A)
    (self : Obj) (w : World) (e : Exn) :
  fst (fst (retry_loop d k f self w)) = Raise e ->
  exists last, e = RetryError last.
Proof.
  revert self w. induction k as [|k IH]; intros self w; cbn [retry_loop];
    destruct (f self w) as [[[r|e0] self1] w1]; simpl;
    try discriminate.
  - intros H. injection H as <-. now eexists.
  - apply IH.
Qed.

(** X1.  Every attempt of [step] appends the incoming message again: after
    [n] delays of 60 the transcript holds [n + 1] new copies of it,
    followed by at most one reply; at most 4 delays are slept and at
    most 5 requests sent. *)
Lemma step_appends_per_attempt (m : Msg.t) (a : ChatAgent) (w : World) :
  exists n tl,
    (n <= 4)%nat /\
    sleeps (snd (step m a w)) = sleeps w ++ repeat 60 n /\
    stored_messages (snd (fst (step m a w))) =
      stored_messages a ++ repeat m (S n) ++ tl /\
    (List.length tl <= 1)%nat /\
    (List.length (calls (snd (step m a w))) <=
       List.length (calls w) + S n)%nat.
Proof.
  unfold step, retry. cbn [Nat.pred]. generalize 4%nat as k.
  intros k. revert a w. induction k as [|k IH]; intros a w;
    cbn [retry_loop]; attempt_cases m a w H c; simpl;
    try (exists 0%nat, []; simpl;
         rewrite ?app_nil_r, ?length_app; simpl; repeat split; lia);
    try (exists 0%nat, [output_message a c]; simpl;
         rewrite ?app_nil_r, ?length_app; simpl; repeat split; lia).
  destruct (IH (set_stored_messages (stored_messages a ++ [m]) a)
              (sleep 60 (mkWorld (calls w ++ [turn_request a m]) (sleeps w))))
    as (n & tl & Hn & Hsl & Hst & Htl & Hc).
  exists (S n), tl. simpl in *.
  rewrite Hsl, Hst, <- !app_assoc. rewrite length_app in Hc. simpl in *.
  repeat split; try lia.
Qed.

End ChatAgentProperties.

(** * Strings: [startswith], [in] and [replace] *)

Section Replace.
Local Open Scope string_scope.

Lemma length_append (u v : string) :
  String.length (u ++ v) = (String.length u + String.length v)%nat.
Proof. induction u as [|c u IH]; simpl; [reflexivity|now rewrite IH]. Qed.

Lemma startswith_nil (s : string) : startswith "" s = true.
Proof. now destruct s. Qed.

Lemma startswith_append (p rest : string) : startswith p (p ++ rest) = true.
Proof.
  induction p as [|c p IH]; simpl; [apply startswith_nil|].
  now rewrite Ascii.eqb_refl.
Qed.

Lemma startswith_split (p s : string) :
  startswith p s = true -> exists rest, s = p ++ rest.
Proof.
  revert s. induction p as [|c p IH]; intros s H.
  - now exists s.
  - destruct s as [|b s]; simpl in H; [discriminate|].
    apply andb_true_iff in H. destruct H as [Hc Hp].
    apply Ascii.eqb_eq in Hc. subst b.
    destruct (IH s Hp) as [rest ->]. now exists rest.
Qed.

Lemma all_chars_append (p : ascii -> bool) (u v : string) :
  all_chars p (u ++ v) = all_chars p u && all_chars p v.
Proof.
  induction u as [|c u IH]; simpl; [reflexivity|].
  now rewrite IH, andb_assoc.
Qed.

Variables (o : ascii) (old' new : string).

(** The scan passes over the [k] characters it has been told to skip. *)
Lemma replace_scan_skip (u v : string) :
  replace_scan (String o old') new (String.length u) (u ++ v) =
  replace_scan (String o old') new 0 v.
Proof.
  induction u as [|c u IH]; [reflexivity|]. simpl. exact IH.
Qed.

Lemma replace_scan_occurrence (rest : string) :
  replace_scan (String o old') new 0 (String o old' ++ rest) =
  new ++ replace_scan (String o old') new 0 rest.
Proof.
  pose proof (startswith_append (String o old') rest) as Hst.
  cbn [append] in *. cbn [replace_scan]. rewrite Hst.
  cbn [String.length Nat.pred]. now rewrite replace_scan_skip.
Qed.

Lemma replace_scan_char (c : ascii) (s : string) :
  startswith (String o old') (String c s) = false ->
  replace_scan (String o old') new 0 (String c s) =
  String c (replace_scan (String o old') new 0 s).
Proof. intros H. cbn [replace_scan]. now rewrite H. Qed.

(** Induction along the scan: nothing left, an occurrence of [old] at
    the front, or a character copied. *)
Lemma replace_scan_ind (P : string -> string -> Prop) :
  P "" "" ->
  (forall rest,
     P rest (replace_scan (String o old') new 0 rest) ->
     P (String o old' ++ rest)
       (new ++ replace_scan (String o old') new 0 rest)) ->
  (forall c s,
     startswith (String o old') (String c s) = false ->
     P s (replace_scan (String o old') new 0 s) ->
     P (String c s) (String c (replace_scan (String o old') new 0 s))) ->
  forall s, P s (replace_scan (String o old') new 0 s).
Proof.
  intros Hnil Hocc Hchar s.
  remember (String.length s) as n eqn:Hn.
  assert (Hle : (String.length s <= n)%nat) by lia. clear Hn.
  revert s Hle. induction n as [|n IH]; intros s Hle.
  - destruct s; [exact Hnil|simpl in Hle; lia].
  - destruct s as [|c s]; [exact Hnil|].
    destruct (startswith (String o old') (String c s)) eqn:Hst.
    + destruct (startswith_split _ _ Hst) as [rest Hrest].
      rewrite Hrest, replace_scan_occurrence. apply Hocc, IH.
      rewrite Hrest, length_append in Hle. simpl in Hle. lia.
    + rewrite (replace_scan_char _ _ Hst). apply Hchar; [exact Hst|].
      apply IH. simpl in Hle. lia.
Qed.

(** Without an occurrence of [old], [replace] returns its argument. *)
Lemma replace_absent (s : string) :
  contains (String o old') s = false ->
  replace (String o old') new s = s.
Proof.
  unfold replace. apply (replace_scan_ind (fun s r => contains _ s = false -> r = s)).
  - reflexivity.
  - intros rest _ H. exfalso.
    pose proof (startswith_append (String o old') rest) as Hst.
    cbn [append] in H, Hst. cbn [contains] in H. rewrite Hst in H.
    discriminate.
  - intros c s' _ IH H. simpl in H. apply orb_false_iff in H.
    destruct H as [_ H]. now rewrite (IH H).
Qed.

End Replace.

(** [replace] and the print of an integer on small inputs, as Python
    answers them. *)
Example replace_examples :
  replace "aa" "b" "aaaaa" = "bba"%string /\
  replace "" "-" "abc" = "-a-b-c-"%string /\
  replace "<TASK>" "X" "a <TASK> b <TASK>" = "a X b X"%string /\
  replace "<TASK>" "X" "no placeholder" = "no placeholder"%string /\
  decimal 50 = "50"%string /\ decimal 0 = "0"%string /\
  decimal (-7) = "-7"%string /\ decimal_digits (-7) = 1.
Proof. repeat split. Qed.

(** * The placeholders [<WORD_LIMIT>] and [<TASK>] *)

Section Placeholders.
Local Open Scope string_scope.

(** A text free of [5] that starts the result of substituting [50]
    already started the text substituted into. *)
Lemma startswith_after_word_limit (u s : string) :
  all_chars not_five u = true ->
  startswith u (replace_scan "<WORD_LIMIT>" "50" 0 s) = true ->
  startswith u s = true.
Proof.
  revert s. induction u as [|x u IH]; intros s Hu H.
  - apply startswith_nil.
  - simpl in Hu. apply andb_true_iff in Hu. destruct Hu as [Hx Hu].
    destruct s as [|c s]; [discriminate H|].
    destruct (startswith "<WORD_LIMIT>" (String c s)) eqn:Hst.
    + exfalso. destruct (startswith_split _ _ Hst) as [rest Hrest].
      rewrite Hrest, replace_scan_occurrence in H.
      cbn [append startswith] in H.
      unfold not_five in Hx.
      destruct (Ascii.eqb x "5"); discriminate.
    + rewrite (replace_scan_char _ _ _ _ _ Hst) in H.
      cbn [startswith] in *. apply andb_true_iff in H.
      destruct H as [Hc H]. rewrite Hc. simpl. now apply IH.
Qed.

(** Substituting the word limit leaves no [<WORD_LIMIT>] behind. *)
Lemma word_limit_gone (s : string) :
  contains "<WORD_LIMIT>" (replace "<WORD_LIMIT>" "50" s) = false.
Proof.
  unfold replace.
  apply (replace_scan_ind _ _ _
           (fun _ r => contains "<WORD_LIMIT>" r = false)).
  - reflexivity.
  - intros rest IH. cbn. exact IH.
  - intros c s' Hst IH. cbn [contains]. rewrite IH, orb_false_r.
    destruct (startswith "<WORD_LIMIT>"
                (String c (replace_scan "<WORD_LIMIT>" "50" 0 s'))) eqn:H;
      [|reflexivity].
    rewrite <- Hst. cbn [startswith] in *.
    apply andb_true_iff in H. destruct H as [Hc H]. rewrite Hc. simpl.
    symmetry. now apply startswith_after_word_limit.
Qed.

(** Substituting the word limit keeps a [<TASK>] placeholder. *)
Lemma word_limit_keeps_task (s : string) :
  contains "<TASK>" s = true ->
  contains "<TASK>" (replace "<WORD_LIMIT>" "50" s) = true.
Proof.
  unfold replace.
  apply (replace_scan_ind _ _ _
           (fun s r => contains "<TASK>" s = true ->
                       contains "<TASK>" r = true)).
  - discriminate.
  - intros rest IH H. cbn in H. cbn. now apply IH.
  - intros c s' _ IH H. cbn [contains] in H. apply orb_true_iff in H.
    destruct H as [H|H].
    + destruct (startswith_split _ _ H) as [post Hpost].
      cbn [append] in Hpost. injection Hpost as -> ->.
      cbn. now rewrite startswith_nil.
    + cbn [contains]. rewrite (IH H). apply orb_true_r.
Qed.

(** A text without [<] holds no [<TASK>]. *)
Lemma no_lt_no_task (r : string) :
  all_chars not_lt r = true -> contains "<TASK>" r = false.
Proof.
  induction r as [|c r IH]; intros H; [reflexivity|].
  simpl in H. apply andb_true_iff in H. destruct H as [Hc H].
  cbn [contains startswith]. rewrite (IH H), orb_false_r.
  unfold not_lt in Hc. rewrite Ascii.eqb_sym.
  now destruct (Ascii.eqb c "<").
Qed.

(** When every [<] of the template opens a [<TASK>] and the task has no
    [<], the filled template has no [<] at all. *)
Lemma filled_template_no_lt (t s : string) :
  all_chars not_lt t = true ->
  brackets_open_task s = true ->
  all_chars not_lt (replace "<TASK>" t s) = true.
Proof.
  intros Ht. unfold replace.
  apply (replace_scan_ind _ _ _
           (fun s r => brackets_open_task s = true ->
                       all_chars not_lt r = true)).
  - reflexivity.
  - intros rest IH H. cbn in H.
    rewrite startswith_nil in H. cbn in H.
    rewrite all_chars_append, Ht. now apply IH.
  - intros c s' Hst IH H. cbn [brackets_open_task] in H.
    rewrite Hst, orb_false_r in H. apply andb_true_iff in H.
    destruct H as [Hc H]. cbn [all_chars]. rewrite Hc. now apply IH.
Qed.

End Placeholders.

(** * [TaskSpecifyAgent] *)

Section TaskSpecifyAgentProperties.
Context {E : Env}.

(** [specify_task] after its [reset]: the template is overwritten, the
    task message goes through one [step], and the first message of the
    result is taken before the flag is looked at. *)
Lemma specify_task_unfold (t : string) (a : TaskSpecifyAgent) (w : World) :
  specify_task t a w =
    match step (task_message a t)
            (set_stored_messages [system_message (super a)]
               (set_terminated false (super a))) w with
    | (Return (msgs, flag, _), a1, w1) =>
        let self := mkTaskSpecifyAgent a1
                      (replace "<TASK>" t (task_specify_prompt a)) in
        match msgs with
        | [] => (Raise IndexError, self, w1)
        | msg :: _ =>
            if flag
            then (Raise (RuntimeError "Task specification failed."), self, w1)
            else (Return (Msg.content msg), self, w1)
        end
    | (Raise e, a1, w1) =>
        (Raise e,
         mkTaskSpecifyAgent a1 (replace "<TASK>" t (task_specify_prompt a)),
         w1)
    end.
Proof.
  unfold specify_task, bind, inherited, reset, init_messages, bind, modify,
    get, ret, task_message; simpl.
  destruct (step _ _ w) as [[[[[msgs flag] info]|e] a1] w1]; simpl;
    [|reflexivity].
  destruct msgs as [|msg msgs]; simpl; [reflexivity|].
  now destruct flag.
Qed.

Lemma specify_task_sets_template (t : string) (a : TaskSpecifyAgent)
    (w : World) :
  task_specify_prompt (snd (fst (specify_task t a w))) =
    replace "<TASK>" t (task_specify_prompt a).
Proof.
  rewrite specify_task_unfold.
  destruct (step _ _ w) as [[[[[msgs flag] info]|e] a1] w1]; simpl;
    [|reflexivity].
  destruct msgs as [|msg msgs]; simpl; [reflexivity|].
  now destruct flag.
Qed.

(** X5.  The [raise RuntimeError] of [specify_task] is never reached: a turn
    that comes back terminated comes back with no message, and indexing
    the empty list raises first. *)
Lemma specify_task_never_RuntimeError (t : string) (a : TaskSpecifyAgent)
    (w : World) (msg : string) :
  fst (fst (specify_task t a w)) <> Raise (RuntimeError msg).
Proof.
  rewrite specify_task_unfold. unfold step, retry. cbn [Nat.pred].
  set (a0 := set_stored_messages [system_message (super a)]
               (set_terminated false (super a))).
  pose proof (retry_loop_step_flag 4 (task_message a t) a0 w)
    as [_ [_ Hempty]].
  pose proof (retry_loop_raises_RetryError 60 4
                (step_body (task_message a t)) a0 w (RuntimeError msg))
    as Hraise.
  revert Hempty Hraise.
  destruct (retry_loop 60 4 (step_body (task_message a t)) a0 w)
    as [[[[[msgs flag] info]|e] a1] w1]; cbn [fst snd];
    intros Hempty Hraise.
  - destruct msgs as [|m ms]; [discriminate|].
    destruct flag; [|discriminate].
    specialize (Hempty eq_refl (m :: ms) info eq_refl). discriminate.
  - intros H. injection H as ->.
    destruct (Hraise eq_refl) as [last Hlast]. discriminate.
Qed.

(** C4.  When the single turn of [specify_task] is over budget, the
    call does not return a string, but the exception it raises is the
    [IndexError] of taking the first of no messages, not the
    [RuntimeError] written two lines below; the agent is left terminated
    and no request is sent. *)
Theorem specify_task_over_budget (t : string) (a : TaskSpecifyAgent)
    (w : World) :
  model_token_limit (super a) <= specify_task_tokens a t ->
  exists a',
    specify_task t a w = (Raise IndexError, a', w) /\
    terminated (super a') = true /\
    stored_messages (super a') =
      [system_message (super a); task_message a t] /\
    task_specify_prompt a' = replace "<TASK>" t (task_specify_prompt a).
Proof.
  intros Hge. rewrite specify_task_unfold.
  rewrite step_over by exact Hge.
  eexists. split; [reflexivity|]. repeat split.
Qed.

(** [str] returns the decimal print of an integer of up to 640 digits
    whatever limit the interpreter is set to, and of any integer within
    the limit or when there is none. *)
Lemma str_within_limit (n : Z) :
  decimal_digits n <= 640 \/
  int_max_str_digits = 0 \/
  decimal_digits n <= int_max_str_digits ->
  str n = Return (decimal n).
Proof.
  intros H. unfold str.
  pose proof int_max_str_digits_valid as Hvalid.
  destruct (0 <? int_max_str_digits) eqn:Hpos; [|reflexivity].
  destruct (int_max_str_digits <? decimal_digits n) eqn:Hover;
    [|reflexivity].
  exfalso. apply Z.ltb_lt in Hpos, Hover.
  apply orb_true_iff in Hvalid. destruct Hvalid as [Hv|Hv].
  - apply Z.eqb_eq in Hv. lia.
  - apply Z.leb_le in Hv. lia.
Qed.

(** An inherited method leaves the template alone. *)
Lemma inherited_keeps_template {A} (m : M ChatAgent A)
    (a : TaskSpecifyAgent) (w : World) :
  task_specify_prompt (snd (fst (inherited m a w))) = task_specify_prompt a.
Proof.
  unfold inherited. now destruct (m (super a) w) as [[r a1] w1].
Qed.

(** C5, amended.  Constructed with word limit 50 and no template given,
    the agent stores the text read from the template file with every
    [<WORD_LIMIT>] replaced by [50]: no [<WORD_LIMIT>] is left, a
    [<TASK>] of the text is still there, and the inherited methods do not
    touch the stored template.  A template given directly is stored as
    it is. *)
Theorem task_specify_prompt_after_init (model : ModeType)
    (cfg : option Config) (path text : string) :
  read_file path = Some text ->
  contains "<TASK>" text = true ->
  (exists a,
     TaskSpecifyAgent_init model cfg None path 50 = Return a /\
     task_specify_prompt a = replace "<WORD_LIMIT>" "50" text /\
     contains "<WORD_LIMIT>" (task_specify_prompt a) = false /\
     contains "<TASK>" (task_specify_prompt a) = true /\
     forall A (m : M ChatAgent A) (w : World),
       task_specify_prompt (snd (fst (inherited m a w))) =
         task_specify_prompt a) /\
  (forall template,
   exists a,
     TaskSpecifyAgent_init model cfg (Some template) path 50 = Return a /\
     task_specify_prompt a = template).
Proof.
  intros Hfile Htask. split.
  - unfold TaskSpecifyAgent_init. rewrite Hfile.
    rewrite (str_within_limit 50) by (left; vm_compute; discriminate).
    change (decimal 50) with "50"%string.
    eexists. split; [reflexivity|]. cbn [task_specify_prompt].
    split; [reflexivity|]. split; [apply word_limit_gone|].
    split; [now apply word_limit_keeps_task|].
    intros A m w. apply inherited_keeps_template.
  - intros template. eexists. split; reflexivity.
Qed.

(** C6, amended.  Whatever the outcome of [specify_task t], the stored
    template is afterwards the previous one with every [<TASK>] replaced
    by [t], and a second call substitutes into that text.  When [t] has
    no [<] and every [<] of the template opened a [<TASK>], the filled
    text holds no [<TASK>], and the second call leaves it as the first
    call made it. *)
Theorem specify_task_overwrites_template (t : string)
    (a : TaskSpecifyAgent) (w : World) :
  task_specify_prompt (snd (fst (specify_task t a w))) =
    replace "<TASK>" t (task_specify_prompt a) /\
  (forall t2,
     task_specify_prompt
       (snd (fst (specify_task t2 (snd (fst (specify_task t a w)))
                    (snd (specify_task t a w))))) =
       replace "<TASK>" t2 (replace "<TASK>" t (task_specify_prompt a))) /\
  (all_chars not_lt t = true ->
   brackets_open_task (task_specify_prompt a) = true ->
   contains "<TASK>" (task_specify_prompt (snd (fst (specify_task t a w))))
     = false /\
   forall t2,
     task_specify_prompt
       (snd (fst (specify_task t2 (snd (fst (specify_task t a w)))
                    (snd (specify_task t a w))))) =
       replace "<TASK>" t (task_specify_prompt a)).
Proof.
  split; [apply specify_task_sets_template|]. split.
  - intros t2. now rewrite !specify_task_sets_template.
  - intros Ht Htpl.
    assert (Hno : contains "<TASK>"
                    (replace "<TASK>" t (task_specify_prompt a)) = false).
    { apply no_lt_no_task. now apply filled_template_no_lt. }
    split.
    + now rewrite specify_task_sets_template.
    + intros t2. rewrite !specify_task_sets_template.
      now apply replace_absent.
Qed.

End TaskSpecifyAgentProperties.

(** * The statements at concrete agents *)

Section Runs.
Local Open Scope string_scope.

Lemma step_over_budget_witness :
  model_token_limit (doctor_agent env_tight GPT_3_5_TURBO) <=
    turn_tokens (doctor_agent env_tight GPT_3_5_TURBO) hello /\
  exists a',
    step hello (doctor_agent env_tight GPT_3_5_TURBO) World0 =
      (Return ([], true,
               {| info_id := None;
                  info_usage := None;
                  info_finish_reasons := ["max_tokens_exceeded"];
                  info_num_tokens := 23 |}),
       a', World0) /\
    terminated a' = true /\
    stored_messages a' = [doctor; hello].
Proof.
  split; [vm_compute; discriminate|].
  destruct (step_over_budget (E:=env_tight) hello
              (doctor_agent env_tight GPT_3_5_TURBO) World0)
    as (a' & H1 & H2 & H3 & _); [vm_compute; discriminate|].
  exists a'. split; [exact H1|]. split; [exact H2|exact H3].
Defined.

Lemma fresh_or_reset_agent_witness :
  stored_messages (doctor_agent env_roomy GPT_3_5_TURBO) = [doctor] /\
  (exists t,
     TaskSpecifyAgent_init (E:=env_file) GPT_3_5_TURBO None None
       default_task_specify_prompt_path 50 = Return t /\
     terminated (super t) = false /\
     stored_messages (super t) = [task_specifier_system_message]) /\
  (exists a',
     reset
       (snd (fst (step hello (doctor_agent env_tight GPT_3_5_TURBO) World0)))
       World0 = (Return [doctor], a', World0) /\
     terminated a' = false /\
     stored_messages a' = [doctor]).
Proof.
  destruct (fresh_or_reset_agent (E:=env_roomy)) as (Hnew & _ & _).
  destruct (fresh_or_reset_agent (E:=env_file)) as (_ & Hspec & _).
  destruct (fresh_or_reset_agent (E:=env_tight)) as (_ & _ & Hreset).
  split; [exact (proj1 (proj2 (Hnew doctor GPT_3_5_TURBO None)))|].
  split.
  - eexists. split; [reflexivity|].
    destruct (Hspec GPT_3_5_TURBO None None default_task_specify_prompt_path
                50 _ eq_refl) as (Hterm & Hst & _).
    split; [exact Hterm|exact Hst].
  - destruct (Hreset
                (snd (fst (step hello (doctor_agent env_tight GPT_3_5_TURBO)
                             World0))) World0)
      as (a' & Heq & Hterm & Hst & _).
    exists a'. split; [exact Heq|]. split; [exact Hterm|exact Hst].
Defined.

Lemma reset_idempotent_witness :
  terminated
    (snd (fst (step hello (doctor_agent env_tight GPT_3_5_TURBO) World0)))
    = true /\
  stored_messages
    (snd (fst (step hello (doctor_agent env_tight GPT_3_5_TURBO) World0)))
    = [doctor; hello] /\
  exists a1,
    reset
      (snd (fst (step hello (doctor_agent env_tight GPT_3_5_TURBO) World0)))
      World0 = (Return [doctor], a1, World0) /\
    stored_messages a1 = [doctor] /\
    terminated a1 = false /\
    reset a1 World0 = (Return [doctor], a1, World0).
Proof.
  split; [vm_compute; reflexivity|]. split; [vm_compute; reflexivity|].
  destruct (reset_idempotent (E:=env_tight)
              (snd (fst (step hello (doctor_agent env_tight GPT_3_5_TURBO)
                           World0))) World0)
    as (a1 & Hfirst & Hst & Hterm & _ & Hsecond).
  exists a1. split; [exact Hfirst|]. split; [exact Hst|].
  split; [exact Hterm|]. rewrite Hsecond, Hst. reflexivity.
Defined.

Lemma step_under_budget_witness :
  turn_tokens (doctor_agent env_two GPT_3_5_TURBO) hello <
    model_token_limit (doctor_agent env_two GPT_3_5_TURBO) /\
  exists outputs info a' w',
    step hello (doctor_agent env_two GPT_3_5_TURBO) World0 =
      (Return (outputs, false, info), a', w') /\
    outputs = [ChatMessage "doctor" ASSISTANT "assistant" "Hi.";
               ChatMessage "doctor" ASSISTANT "assistant" "Hello."] /\
    stored_messages a' =
      [doctor; hello; ChatMessage "doctor" ASSISTANT "assistant" "Hi."] /\
    info_id info = Some "chatcmpl-2" /\
    info_finish_reasons info = ["stop"; "None"] /\
    info_num_tokens info = 23 /\
    List.length (calls w') = 1%nat.
Proof.
  split; [vm_compute; reflexivity|].
  destruct (step_under_budget (E:=env_two) hello
              (doctor_agent env_two GPT_3_5_TURBO) World0
              (mkResponse "chatcmpl-2" [("total_tokens", 12)]
                 [reply "Hi.";
                  mkChoice (mkOpenAIMessage "assistant" "Hello.") None])
              (reply "Hi.")
              [mkChoice (mkOpenAIMessage "assistant" "Hello.") None])
    as (outputs & info & a' & w' & Hstep & Hcalls & _ & Hout & _ & _ &
        Hst & _ & _ & Hid & _ & Hfin & _ & Hnum);
    [vm_compute; reflexivity|reflexivity|reflexivity|].
  exists outputs, info, a', w'.
  split; [exact Hstep|]. split; [exact Hout|]. split; [exact Hst|].
  split; [exact Hid|]. split; [exact Hfin|]. split; [exact Hnum|].
  rewrite Hcalls. reflexivity.
Defined.

Lemma terminated_monotone_under_step_witness :
  terminated (set_terminated true (doctor_agent env_roomy GPT_3_5_TURBO))
    = true /\
  fst (fst (step hello
              (set_terminated true (doctor_agent env_roomy GPT_3_5_TURBO))
              World0)) =
    Return ([ChatMessage "doctor" ASSISTANT "assistant" "Hi."], true,
            {| info_id := Some "chatcmpl-1";
               info_usage := Some [("total_tokens", 9)];
               info_finish_reasons := ["stop"];
               info_num_tokens := 23 |}) /\
  terminated
    (snd (fst (step hello
                 (set_terminated true (doctor_agent env_roomy GPT_3_5_TURBO))
                 World0))) = true /\
  terminated
    (fst (apply_ops [OpStep hello; OpStep hello]
            (set_terminated true (doctor_agent env_roomy GPT_3_5_TURBO),
             World0))) = true.
Proof.
  destruct (terminated_monotone_under_step (E:=env_roomy)
              (set_terminated true (doctor_agent env_roomy GPT_3_5_TURBO))
              World0 eq_refl)
    as (Hstep & Hseq & _ & _).
  split; [reflexivity|]. split; [vm_compute; reflexivity|].
  split; [exact (proj1 (Hstep hello))|exact (Hseq [hello; hello])].
Defined.

(** C3.  With a service whose first answer is a rate-limit failure, one
    call of [step] returns the reply of the second attempt and leaves
    the incoming message in the transcript twice: the retry re-runs the
    whole method, and the second request already carries the duplicate. *)
Theorem step_retry_duplicates_incoming :
  exists info a' w',
    step hello (doctor_agent env_flaky GPT_3_5_TURBO) World0 =
      (Return ([ChatMessage "doctor" ASSISTANT "assistant" "Hi."], false,
               info), a', w') /\
    stored_messages a' =
      [doctor; hello; hello;
       ChatMessage "doctor" ASSISTANT "assistant" "Hi."] /\
    map req_messages (calls w') =
      [map to_openai_message [doctor; hello];
       map to_openai_message [doctor; hello; hello]] /\
    sleeps w' = [60] /\
    info_num_tokens info = 29.
Proof.
  do 3 eexists. split; [vm_compute; reflexivity|].
  repeat split.
Qed.

(** A service that never answers: five requests, four delays of 60, a
    [RetryError] around the last failure, and five copies of the
    incoming message in the transcript. *)
Example step_gives_up_after_five :
  exists a' w',
    step hello (doctor_agent env_down GPT_3_5_TURBO) World0 =
      (Raise (RetryError (ServiceError "APIConnectionError")), a', w') /\
    stored_messages a' = [doctor; hello; hello; hello; hello; hello] /\
    List.length (calls w') = 5%nat /\
    sleeps w' = [60; 60; 60; 60].
Proof.
  do 2 eexists. split; [vm_compute; reflexivity|].
  repeat split.
Qed.

Lemma specify_task_over_budget_witness :
  model_token_limit
    (super (specifier env_file GPT_3_5_TURBO
              "Task: <TASK>. Reply in 50 words.")) <=
    specify_task_tokens
      (specifier env_file GPT_3_5_TURBO "Task: <TASK>. Reply in 50 words.")
      long_task /\
  exists a',
    specify_task long_task
      (specifier env_file GPT_3_5_TURBO "Task: <TASK>. Reply in 50 words.")
      World0 = (Raise IndexError, a', World0) /\
    terminated (super a') = true.
Proof.
  split; [vm_compute; discriminate|].
  destruct (specify_task_over_budget (E:=env_file) long_task
              (specifier env_file GPT_3_5_TURBO
                 "Task: <TASK>. Reply in 50 words.") World0)
    as (a' & H1 & H2 & _); [vm_compute; discriminate|].
  exists a'. split; [exact H1|exact H2].
Defined.

Lemma task_specify_prompt_after_init_witness :
  @read_file env_file default_task_specify_prompt_path =
    Some "Task: <TASK>. Reply in <WORD_LIMIT> words." /\
  contains "<TASK>" "Task: <TASK>. Reply in <WORD_LIMIT> words." = true /\
  exists a,
    TaskSpecifyAgent_init (E:=env_file) GPT_3_5_TURBO None None
      default_task_specify_prompt_path 50 = Return a /\
    task_specify_prompt a = "Task: <TASK>. Reply in 50 words.".
Proof.
  split; [reflexivity|]. split; [reflexivity|].
  destruct (task_specify_prompt_after_init (E:=env_file) GPT_3_5_TURBO None
              default_task_specify_prompt_path
              "Task: <TASK>. Reply in <WORD_LIMIT> words."
              eq_refl eq_refl)
    as [(a & Hinit & Hprompt & _) _].
  exists a. split; [exact Hinit|exact Hprompt].
Defined.

(** A template given directly keeps its [<WORD_LIMIT>]: the word limit
    is substituted only into a template read from the file. *)
Lemma supplied_template_keeps_word_limit :
  contains "<TASK>" "Task: <TASK>. Reply in <WORD_LIMIT> words." = true /\
  contains "<WORD_LIMIT>" "Task: <TASK>. Reply in <WORD_LIMIT> words."
    = true /\
  exists a,
    TaskSpecifyAgent_init (E:=env_file) GPT_3_5_TURBO None
      (Some "Task: <TASK>. Reply in <WORD_LIMIT> words.")
      default_task_specify_prompt_path 50 = Return a /\
    task_specify_prompt a <>
      replace "<WORD_LIMIT>" "50"
        "Task: <TASK>. Reply in <WORD_LIMIT> words." /\
    contains "<WORD_LIMIT>" (task_specify_prompt a) = true.
Proof.
  split; [reflexivity|]. split; [reflexivity|].
  eexists. split; [reflexivity|]. split; [|reflexivity].
  vm_compute. discriminate.
Qed.

Lemma specify_task_overwrites_template_witness :
  all_chars not_lt "X" = true /\
  brackets_open_task "Task: <TASK>. Reply in 50 words." = true /\
  task_specify_prompt
    (snd (fst (specify_task "X"
                 (specifier env_file GPT_3_5_TURBO
                    "Task: <TASK>. Reply in 50 words.") World0))) =
    "Task: X. Reply in 50 words." /\
  task_specify_prompt
    (snd (fst (specify_task "Y"
                 (snd (fst (specify_task "X"
                              (specifier env_file GPT_3_5_TURBO
                                 "Task: <TASK>. Reply in 50 words.")
                              World0)))
                 (snd (specify_task "X"
                         (specifier env_file GPT_3_5_TURBO
                            "Task: <TASK>. Reply in 50 words.")
                         World0))))) =
    "Task: X. Reply in 50 words.".
Proof.
  destruct (specify_task_overwrites_template (E:=env_file) "X"
              (specifier env_file GPT_3_5_TURBO
                 "Task: <TASK>. Reply in 50 words.") World0)
    as (Hfirst & _ & Hsecond).
  destruct (Hsecond eq_refl eq_refl) as [_ Hsame].
  split; [reflexivity|]. split; [reflexivity|].
  split; [exact Hfirst|exact (Hsame "Y")].
Defined.

(** A task that itself reads [<TASK>]: the template after the call still
    holds [<TASK>] (it is the template from before the call), and a
    second call substitutes its task there. *)
Lemma specify_task_may_keep_placeholder :
  task_specify_prompt
    (snd (fst (specify_task "<TASK>"
                 (specifier env_file GPT_3_5_TURBO "Task: <TASK>")
                 World0))) = "Task: <TASK>" /\
  contains "<TASK>"
    (task_specify_prompt
       (snd (fst (specify_task "<TASK>"
                    (specifier env_file GPT_3_5_TURBO "Task: <TASK>")
                    World0)))) = true /\
  task_specify_prompt
    (snd (fst (specify_task "Y"
                 (snd (fst (specify_task "<TASK>"
                              (specifier env_file GPT_3_5_TURBO
                                 "Task: <TASK>") World0)))
                 (snd (specify_task "<TASK>"
                         (specifier env_file GPT_3_5_TURBO "Task: <TASK>")
                         World0))))) = "Task: Y".
Proof.
  repeat split; vm_compute; reflexivity.
Qed.

End Runs.

(** * More on the retry wrapper and the result of [step] *)

(** The three ends of one attempt, with the hypotheses on the count. *)
Ltac split_attempt m a w H c :=
  destruct (step_body_cases m a w)
    as [[? H]|[[? [? H]]|[? (? & c & ? & _ & H)]]];
  rewrite H.

Section StepResults.
Context {E : Env}.

(** [step] on a turn under budget that the service answers with at
    least one candidate: the first attempt returns. *)
Lemma step_answered (m : Msg.t) (a : ChatAgent) (w : World)
    (response : Response) (c : Choice) (cs : list Choice) :
  turn_tokens a m < model_token_limit a ->
  ChatCompletion_create (List.length (calls w)) (ModeType_value (model a))
    (map to_openai_message (stored_messages a ++ [m])) (model_config a)
    = inr response ->
  response_choices response = c :: cs ->
  step m a w =
    (Return (map (output_message a) (c :: cs), terminated a,
             get_info (Some (response_id response))
               (Some (response_usage response))
               (map (fun choice =>
                       str_finish_reason (choice_finish_reason choice))
                  (c :: cs))
               (turn_tokens a m)),
     set_stored_messages (stored_messages a ++ [m; output_message a c]) a,
     mkWorld (calls w ++ [turn_request a m]) (sleeps w)).
Proof.
  intros Hlt Hcall Hcs.
  pose proof (step_body_answers m a w response Hlt Hcall) as Hs.
  rewrite Hcs in Hs.
  unfold step, retry. cbn [Nat.pred retry_loop]. now rewrite Hs.
Qed.

(** When the wrapper raises, every one of its [k + 1] attempts was under
    budget and failed: [k] delays, [k + 1] requests, each carrying one
    more copy of the incoming message than the one before. *)
Lemma retry_loop_step_raises (k : nat) (m : Msg.t) (a : ChatAgent)
    (w : World) (e : Exn) :
  fst (fst (retry_loop 60 k (step_body m) a w)) = Raise e ->
  (exists last, e = RetryError last) /\
  sleeps (snd (retry_loop 60 k (step_body m) a w)) =
    sleeps w ++ repeat 60 k /\
  calls (snd (retry_loop 60 k (step_body m) a w)) =
    calls w ++
    map (fun i =>
           mkRequest (ModeType_value (model a))
             (map to_openai_message (stored_messages a ++ repeat m (S i)))
             (model_config a))
      (seq 0 (S k)) /\
  stored_messages (snd (fst (retry_loop 60 k (step_body m) a w))) =
    stored_messages a ++ repeat m (S k) /\
  terminated (snd (fst (retry_loop 60 k (step_body m) a w))) = terminated a.
Proof.
  revert a w. induction k as [|k IH]; intros a w; cbn [retry_loop];
    split_attempt m a w H c; cbn [fst snd]; try discriminate.
  - intros Heq. injection Heq as <-. split; [now eexists|]. simpl.
    now rewrite app_nil_r.
  - intros Hraise.
    destruct (IH _ _ Hraise) as (Hlast & Hsl & Hcalls & Hst & Hterm).
    split; [exact Hlast|].
    split; [rewrite Hsl; simpl; now rewrite <- app_assoc|].
    split; [|split; [rewrite Hst; simpl; now rewrite <- app_assoc
                    |now rewrite Hterm]].
    rewrite Hcalls. unfold sleep. cbn [calls]. rewrite <- app_assoc. f_equal.
    change (seq 0 (S (S k))) with (0%nat :: seq 1 (S k)).
    rewrite <- seq_shift, map_cons, map_map. cbn [app]. f_equal.
    apply map_ext. intros i.
    cbn [set_stored_messages stored_messages model model_config].
    now rewrite <- app_assoc.
Qed.

(** What [step] returns, whichever attempt returns it: either no
    message with the flag set and the sentinel metadata, the count at
    or over the ceiling; or at least one message, the flag as it was,
    the service's identifier and usage and the count under the ceiling,
    the first message being the last of the transcript. *)
Lemma retry_loop_step_returns (k : nat) (m : Msg.t) (a : ChatAgent)
    (w : World) (ms : list Msg.t) (flag : bool) (info : Info) :
  fst (fst (retry_loop 60 k (step_body m) a w)) = Return (ms, flag, info) ->
  (ms = [] /\ flag = true /\
   info_id info = None /\ info_usage info = None /\
   info_finish_reasons info = ["max_tokens_exceeded"] /\
   model_token_limit a <= info_num_tokens info) \/
  (flag = terminated a /\
   (exists id, info_id info = Some id) /\
   (exists usage, info_usage info = Some usage) /\
   List.length (info_finish_reasons info) = List.length ms /\
   info_num_tokens info < model_token_limit a /\
   Forall (fun o => Msg.role_name o = role_name a /\
                    Msg.role_type o = role_type a) ms /\
   exists first others transcript,
     ms = first :: others /\
     stored_messages (snd (fst (retry_loop 60 k (step_body m) a w))) =
       transcript ++ [first]).
Proof.
  revert a w.
  assert (Hanswer : forall (a : ChatAgent) c cs response,
    Return (map (output_message a) (c :: cs), terminated a,
            get_info (Some (response_id response))
              (Some (response_usage response))
              (map (fun choice =>
                      str_finish_reason (choice_finish_reason choice))
                 (c :: cs))
              (turn_tokens a m)) = Return (ms, flag, info) ->
    turn_tokens a m < model_token_limit a ->
    flag = terminated a /\
    (exists id, info_id info = Some id) /\
    (exists usage, info_usage info = Some usage) /\
    List.length (info_finish_reasons info) = List.length ms /\
    info_num_tokens info < model_token_limit a /\
    Forall (fun o => Msg.role_name o = role_name a /\
                     Msg.role_type o = role_type a) ms /\
    exists first others,
      ms = first :: others /\ first = output_message a c).
  { intros a c cs response Heq Hlt. injection Heq as <- <- <-.
    split; [reflexivity|]. split; [now eexists|]. split; [now eexists|].
    split; [unfold get_info; simpl; now rewrite !length_map|].
    split; [exact Hlt|]. split.
    - apply Forall_forall. intros o Ho. simpl in Ho.
      destruct Ho as [<-|Ho]; [now split|]. apply in_map_iff in Ho.
      destruct Ho as [x [<- _]]. now split.
    - now do 2 eexists. }
  induction k as [|k IH]; intros a w; cbn [retry_loop];
    destruct (step_body_cases m a w)
      as [[Hge H]|[[_ [e H]]|[Hlt (r & c & cs & _ & H)]]];
    rewrite H; cbn [fst snd]; try discriminate.
  - intros Heq. injection Heq as <- <- <-. left. now repeat split.
  - intros Heq. right.
    destruct (Hanswer a c cs r Heq Hlt)
      as (H1 & H2 & H3 & H4 & H5 & H6 & first & others & -> & ->).
    repeat (split; [assumption|]).
    exists (output_message a c), others, (stored_messages a ++ [m]).
    split; [reflexivity|]. simpl. now rewrite <- app_assoc.
  - intros Heq. injection Heq as <- <- <-. left. now repeat split.
  - intros Heq. exact (IH _ _ Heq).
  - intros Heq. right.
    destruct (Hanswer a c cs r Heq Hlt)
      as (H1 & H2 & H3 & H4 & H5 & H6 & first & others & -> & ->).
    repeat (split; [assumption|]).
    exists (output_message a c), others, (stored_messages a ++ [m]).
    split; [reflexivity|]. simpl. now rewrite <- app_assoc.
Qed.

(** X2.  [step] raises only after five attempts that all failed under
    budget.  What it raises is a [RetryError]; four delays of 60 were
    slept; five requests were sent, the i-th carrying i copies of the
    incoming message; the transcript gained five copies of it and no
    reply; the terminated flag is as it was. *)
Theorem step_raises_after_five_attempts (m : Msg.t) (a : ChatAgent)
    (w : World) (e : Exn) :
  fst (fst (step m a w)) = Raise e ->
  (exists last, e = RetryError last) /\
  sleeps (snd (step m a w)) = sleeps w ++ [60; 60; 60; 60] /\
  calls (snd (step m a w)) =
    calls w ++
    map (fun i =>
           mkRequest (ModeType_value (model a))
             (map to_openai_message (stored_messages a ++ repeat m (S i)))
             (model_config a))
      [0; 1; 2; 3; 4]%nat /\
  stored_messages (snd (fst (step m a w))) =
    stored_messages a ++ [m; m; m; m; m] /\
  terminated (snd (fst (step m a w))) = terminated a.
Proof.
  unfold step, retry. cbn [Nat.pred]. intros Hraise.
  exact (retry_loop_step_raises 4 m a w e Hraise).
Qed.

(** X3.  What a returning [step] hands to its caller is of one of two
    shapes.  Over budget: no message, the flag set, no identifier, no
    usage, the one finish reason [max_tokens_exceeded], a count at or
    over the ceiling.  Answered: at least one message, all under the
    agent's role name and type, the flag the agent had before the call,
    an identifier and a usage, as many finish reasons as messages, a
    count under the ceiling, and the first message is the last of the
    transcript. *)
Theorem step_return_shape (m : Msg.t) (a : ChatAgent) (w : World)
    (ms : list Msg.t) (flag : bool) (info : Info) :
  fst (fst (step m a w)) = Return (ms, flag, info) ->
  (ms = [] /\ flag = true /\
   info_id info = None /\ info_usage info = None /\
   info_finish_reasons info = ["max_tokens_exceeded"] /\
   model_token_limit a <= info_num_tokens info) \/
  (flag = terminated a /\
   (exists id, info_id info = Some id) /\
   (exists usage, info_usage info = Some usage) /\
   List.length (info_finish_reasons info) = List.length ms /\
   info_num_tokens info < model_token_limit a /\
   Forall (fun o => Msg.role_name o = role_name a /\
                    Msg.role_type o = role_type a) ms /\
   exists first others transcript,
     ms = first :: others /\
     stored_messages (snd (fst (step m a w))) = transcript ++ [first]).
Proof.
  unfold step, retry. cbn [Nat.pred].
  apply retry_loop_step_returns.
Qed.

(** Answers without candidates, attempt after attempt. *)
Lemma retry_loop_no_candidates (k : nat) (m : Msg.t) (a : ChatAgent)
    (w : World) :
  (forall i, (i <= k)%nat ->
     num_tokens_from_messages
       (map to_openai_message (stored_messages a ++ repeat m (S i)))
       (model a) < model_token_limit a /\
     exists response,
       ChatCompletion_create (List.length (calls w) + i)
         (ModeType_value (model a))
         (map to_openai_message (stored_messages a ++ repeat m (S i)))
         (model_config a) = inr response /\
       response_choices response = []) ->
  fst (fst (retry_loop 60 k (step_body m) a w)) =
    Raise (RetryError IndexError).
Proof.
  revert a w. induction k as [|k IH]; intros a w Hall;
    destruct (Hall 0%nat (Nat.le_0_l _)) as [Hlt (response & Hcall & Hcs)];
    rewrite Nat.add_0_r in Hcall;
    pose proof (step_body_answers m a w response Hlt Hcall) as Hs;
    rewrite Hcs in Hs; cbn [retry_loop]; rewrite Hs; [reflexivity|].
  apply IH. intros i Hi.
  destruct (Hall (S i) (le_n_S _ _ Hi)) as [Hlt' (r' & Hcall' & Hcs')].
  cbn [set_stored_messages stored_messages model model_config
       model_token_limit sleep calls].
  rewrite <- app_assoc, length_app. cbn [List.length app].
  replace (List.length (calls w) + 1 + i)%nat
    with (List.length (calls w) + S i)%nat by lia.
  split; [exact Hlt'|]. now exists r'.
Qed.

(** X4.  A response without candidates counts as a failure: when every
    one of the five attempts is under budget and is answered by a
    response with an empty candidate list, [step] raises [RetryError]
    around the [IndexError] of taking the first output message, having
    sent five requests and stored five copies of the incoming message. *)
Theorem step_without_candidates (m : Msg.t) (a : ChatAgent) (w : World) :
  (forall i, (i <= 4)%nat ->
     num_tokens_from_messages
       (map to_openai_message (stored_messages a ++ repeat m (S i)))
       (model a) < model_token_limit a /\
     exists response,
       ChatCompletion_create (List.length (calls w) + i)
         (ModeType_value (model a))
         (map to_openai_message (stored_messages a ++ repeat m (S i)))
         (model_config a) = inr response /\
       response_choices response = []) ->
  fst (fst (step m a w)) = Raise (RetryError IndexError) /\
  List.length (calls (snd (step m a w))) = (List.length (calls w) + 5)%nat /\
  stored_messages (snd (fst (step m a w))) =
    stored_messages a ++ [m; m; m; m; m].
Proof.
  intros Hall. unfold step, retry. cbn [Nat.pred].
  pose proof (retry_loop_no_candidates 4 m a w Hall) as Hraise.
  destruct (retry_loop_step_raises 4 m a w _ Hraise)
    as (_ & _ & Hcalls & Hst & _).
  split; [exact Hraise|]. split; [|exact Hst].
  rewrite Hcalls, length_app, length_map. reflexivity.
Qed.

End StepResults.

(** * More on [TaskSpecifyAgent] and on what construction fixes *)

Section SpecifyTaskResults.
Context {E : Env}.

(** X6.  [specify_task] on a turn under budget that the service answers
    with at least one candidate returns the content of the first
    candidate.  One request is sent, carrying the system message and
    the filled template as a user message; the agent is left not
    terminated, its transcript those two messages and the first
    candidate, its template the filled one. *)
Theorem specify_task_returns (t : string) (a : TaskSpecifyAgent)
    (w : World) (response : Response) (c : Choice) (cs : list Choice) :
  specify_task_tokens a t < model_token_limit (super a) ->
  ChatCompletion_create (List.length (calls w))
    (ModeType_value (model (super a)))
    (map to_openai_message
       [system_message (super a); task_message a t])
    (model_config (super a)) = inr response ->
  response_choices response = c :: cs ->
  exists a',
    specify_task t a w =
      (Return (oa_content (choice_message c)), a',
       mkWorld
         (calls w ++
          [mkRequest (ModeType_value (model (super a)))
             (map to_openai_message
                [system_message (super a); task_message a t])
             (model_config (super a))])
         (sleeps w)) /\
    terminated (super a') = false /\
    stored_messages (super a') =
      [system_message (super a); task_message a t;
       output_message (super a) c] /\
    task_specify_prompt a' = replace "<TASK>" t (task_specify_prompt a).
Proof.
  intros Hlt Hcall Hcs. rewrite specify_task_unfold.
  rewrite (step_answered (task_message a t)
             (set_stored_messages [system_message (super a)]
                (set_terminated false (super a))) w response c cs
             Hlt Hcall Hcs).
  eexists. split; [reflexivity|]. repeat split.
Qed.

(** X7.  The three ways [specify_task] can end.  It returns a string:
    the agent is not terminated and the string is the content of the
    last message of the transcript.  It raises [IndexError]: the agent
    is terminated.  It raises [RetryError]: the agent is not terminated.
    There is no other way. *)
Theorem specify_task_outcomes (t : string) (a : TaskSpecifyAgent)
    (w : World) :
  (exists s reply transcript,
     fst (fst (specify_task t a w)) = Return s /\
     terminated (super (snd (fst (specify_task t a w)))) = false /\
     stored_messages (super (snd (fst (specify_task t a w)))) =
       transcript ++ [reply] /\
     Msg.content reply = s) \/
  (fst (fst (specify_task t a w)) = Raise IndexError /\
   terminated (super (snd (fst (specify_task t a w)))) = true) \/
  (exists last,
     fst (fst (specify_task t a w)) = Raise (RetryError last) /\
     terminated (super (snd (fst (specify_task t a w)))) = false).
Proof.
  rewrite specify_task_unfold. unfold step, retry. cbn [Nat.pred].
  set (a0 := set_stored_messages [system_message (super a)]
               (set_terminated false (super a))).
  pose proof (retry_loop_step_flag 4 (task_message a t) a0 w)
    as [_ [Hflag _]].
  pose proof (retry_loop_step_returns 4 (task_message a t) a0 w) as Hret.
  pose proof (retry_loop_step_raises 4 (task_message a t) a0 w) as Hraise.
  revert Hflag Hret Hraise.
  destruct (retry_loop 60 4 (step_body (task_message a t)) a0 w)
    as [[[[[ms flag] info]|e] a1] w1]; cbn [fst snd];
    intros Hflag Hret Hraise.
  - specialize (Hflag ms flag info eq_refl).
    destruct (Hret ms flag info eq_refl)
      as [(-> & -> & _)
         |(Hf & _ & _ & _ & _ & _ & first & others & tr & -> & Hst)].
    + right. left. simpl. split; [reflexivity|]. now symmetry.
    + left. unfold a0 in Hf. simpl in Hf. rewrite Hf in Hflag |- *. simpl.
      exists (Msg.content first), first, tr.
      repeat split; [now symmetry|exact Hst].
  - right. right.
    destruct (Hraise e eq_refl) as ([last ->] & _ & _ & _ & Hterm).
    exists last. split; [reflexivity|]. exact Hterm.
Qed.

(** X8.  On a template that holds no [<TASK>], the task given to
    [specify_task] plays no part: the message sent is the template as
    it is, the call does the same for every task, and the template
    stays. *)
Theorem specify_task_without_placeholder (a : TaskSpecifyAgent) (w : World) :
  contains "<TASK>" (task_specify_prompt a) = false ->
  forall t,
    task_message a t =
      UserChatMessage "task_specifier" (task_specify_prompt a) /\
    (forall t', specify_task t a w = specify_task t' a w) /\
    task_specify_prompt (snd (fst (specify_task t a w))) =
      task_specify_prompt a.
Proof.
  intros Hno t.
  assert (Hsame : forall t0,
            replace "<TASK>" t0 (task_specify_prompt a) =
              task_specify_prompt a).
  { intros t0. now apply replace_absent. }
  split; [unfold task_message; now rewrite Hsame|]. split.
  - intros t'. rewrite !specify_task_unfold. unfold task_message.
    now rewrite !Hsame.
  - now rewrite specify_task_sets_template.
Qed.

(** No operation touches what construction fixed. *)
Lemma apply_ops_same_setup (ops : list Op) (a : ChatAgent) (w : World) :
  same_setup a (fst (apply_ops ops (a, w))).
Proof.
  revert a w. induction ops as [|op ops IH]; intros a w.
  - apply same_setup_refl.
  - unfold apply_ops in *. cbn [fold_left].
    assert (Hop : same_setup a (fst (apply_op op (a, w)))).
    { destruct op as [m|m|]; simpl; try (now repeat split).
      unfold step, retry. cbn [Nat.pred].
      apply (retry_loop_step_extends 4 m a w). }
    destruct (apply_op op (a, w)) as [a1 w1]. simpl in Hop.
    eapply same_setup_trans; [exact Hop|apply IH].
Qed.

Lemma reset_of_same_setup (a b : ChatAgent) (w : World) :
  same_setup a b ->
  snd (fst (reset b w)) = snd (fst (reset a w)).
Proof.
  intros (H1 & H2 & H3 & H4 & H5 & H6).
  destruct a, b. simpl in *. subst.
  reflexivity.
Qed.

(** X9.  [specify_task] starts by a [reset], so what was done to the
    agent before, by any sequence of [step], [update_messages] and
    [reset], makes no difference to it. *)
Theorem specify_task_ignores_history (t : string) (a : TaskSpecifyAgent)
    (ops : list Op) (w0 w : World) :
  specify_task t (set_super (fst (apply_ops ops (super a, w0))) a) w =
  specify_task t a w.
Proof.
  rewrite !specify_task_unfold. cbn [set_super super task_specify_prompt].
  pose proof (apply_ops_same_setup ops (super a) w0) as Hs.
  pose proof (reset_of_same_setup _ _ w Hs) as Hr.
  unfold reset, init_messages, bind, modify, get, ret in Hr. simpl in Hr.
  unfold task_message. cbn [set_super super task_specify_prompt].
  destruct Hs as (Hsm & _). rewrite Hsm in *.
  now rewrite Hr.
Qed.

(** X10.  Construction fixes the system message, the persona read from
    it, the model, the generation configuration (the one given when it
    is truthy, the default one when none is given or the one given is
    falsy) and the token ceiling looked up for the model: no sequence of
    [step], [update_messages] and [reset] changes them. *)
Theorem setup_is_fixed (sm : Msg.t) (model0 : ModeType)
    (cfg : option Config) (ops : list Op) (w : World) :
  system_message (fst (apply_ops ops (ChatAgent_init sm model0 cfg, w)))
    = sm /\
  role_name (fst (apply_ops ops (ChatAgent_init sm model0 cfg, w)))
    = Msg.role_name sm /\
  role_type (fst (apply_ops ops (ChatAgent_init sm model0 cfg, w)))
    = Msg.role_type sm /\
  model (fst (apply_ops ops (ChatAgent_init sm model0 cfg, w))) = model0 /\
  model_config (fst (apply_ops ops (ChatAgent_init sm model0 cfg, w)))
    = match cfg with
      | Some c => if Config_truthy c then c else ChatGPTConfig
      | None => ChatGPTConfig
      end /\
  model_token_limit (fst (apply_ops ops (ChatAgent_init sm model0 cfg, w)))
    = get_model_token_limit model0.
Proof.
  exact (apply_ops_same_setup ops (ChatAgent_init sm model0 cfg) w).
Qed.

(** X11.  [reset] undoes every sequence of operations: whatever was
    done to an agent since it was constructed, the state after [reset]
    is the state construction gave. *)
Theorem reset_restores_construction (sm : Msg.t) (model0 : ModeType)
    (cfg : option Config) (ops : list Op) (w w' : World) :
  snd (fst (reset (fst (apply_ops ops (ChatAgent_init sm model0 cfg, w)))
              w')) =
  ChatAgent_init sm model0 cfg.
Proof.
  rewrite (reset_of_same_setup (ChatAgent_init sm model0 cfg) _ w'
             (apply_ops_same_setup ops _ w)).
  reflexivity.
Qed.

(** X12.  [__repr__] prints the role name and role category of the
    system message the agent was constructed with and its model, and
    keeps printing the same through every sequence of operations. *)
Theorem repr_is_fixed (str_model : ModeType -> string) (sm : Msg.t)
    (model0 : ModeType) (cfg : option Config) (ops : list Op) (w : World) :
  ChatAgent_repr str_model
    (fst (apply_ops ops (ChatAgent_init sm model0 cfg, w))) =
  ("ChatAgent(" ++ Msg.role_name sm ++ ", " ++
   str_RoleType (Msg.role_type sm) ++ ", " ++ str_model model0 ++ ")")%string.
Proof.
  destruct (apply_ops_same_setup ops (ChatAgent_init sm model0 cfg) w)
    as (_ & Hn & Ht & Hm & _).
  unfold ChatAgent_repr. now rewrite Hn, Ht, Hm.
Qed.

End SpecifyTaskResults.

(** * The word limit, whatever its value *)

Section WordLimit.
Local Open Scope string_scope.

Lemma all_chars_impl (p q : ascii -> bool) (s : string) :
  (forall c, p c = true -> q c = true) ->
  all_chars p s = true -> all_chars q s = true.
Proof.
  intros Hpq. induction s as [|c s IH]; simpl; [reflexivity|].
  intros H. apply andb_true_iff in H. destruct H as [Hc Hs].
  now rewrite (Hpq c Hc), IH.
Qed.

(** A digit or a minus sign is none of the characters of
    [<WORD_LIMIT>]. *)
Lemma digit_or_minus_cases (c : ascii) :
  digit_or_minus c = true ->
  not_lt c = true /\
  all_chars (fun x => negb (Ascii.eqb x c)) "WORD_LIMIT>" = true.
Proof.
  unfold digit_or_minus. cbn [existsb]. intros H.
  repeat (apply orb_true_iff in H; destruct H as [H|H];
          [apply Ascii.eqb_eq in H; subst c; now split|]).
  discriminate.
Qed.

Lemma string_of_uint_chars (d : Decimal.uint) :
  all_chars digit_or_minus (NilEmpty.string_of_uint d) = true.
Proof. induction d; simpl; auto. Qed.

(** The print of an integer is a non-empty run of digits, after a minus
    sign when the integer is negative. *)
Lemma decimal_chars (n : Z) :
  all_chars digit_or_minus (decimal n) = true /\ decimal n <> "".
Proof.
  unfold decimal. destruct (Z.to_int n) as [d|d]; simpl.
  - destruct d; simpl; (split; [|discriminate]);
      try reflexivity; apply string_of_uint_chars.
  - split; [|discriminate].
    destruct d; simpl; try reflexivity; apply string_of_uint_chars.
Qed.

(** A text without [<] put in front neither adds nor hides an
    occurrence of a text that starts with [<]. *)
Lemma contains_after_plain (p u r : string) :
  all_chars not_lt u = true ->
  contains (String "<" p) (u ++ r) = contains (String "<" p) r.
Proof.
  induction u as [|c u IH]; intros H; [reflexivity|].
  simpl in H. apply andb_true_iff in H. destruct H as [Hc Hu].
  cbn [append contains startswith]. rewrite (IH Hu).
  unfold not_lt in Hc. rewrite Ascii.eqb_sym.
  now destruct (Ascii.eqb c "<").
Qed.

Variables (n0 : ascii) (new' : string).
Hypothesis new_chars : all_chars digit_or_minus (String n0 new') = true.

Lemma new_is_plain : all_chars not_lt (String n0 new') = true.
Proof.
  apply (all_chars_impl digit_or_minus); [|exact new_chars].
  intros c Hc. now apply digit_or_minus_cases.
Qed.

Lemma startswith_after_substitution (u s : string) :
  all_chars (fun x => negb (Ascii.eqb x n0)) u = true ->
  startswith u (replace_scan "<WORD_LIMIT>" (String n0 new') 0 s) = true ->
  startswith u s = true.
Proof.
  revert s. induction u as [|x u IH]; intros s Hu H.
  - apply startswith_nil.
  - simpl in Hu. apply andb_true_iff in Hu. destruct Hu as [Hx Hu].
    destruct s as [|c s]; [discriminate H|].
    destruct (startswith "<WORD_LIMIT>" (String c s)) eqn:Hst.
    + exfalso. destruct (startswith_split _ _ Hst) as [rest Hrest].
      rewrite Hrest, replace_scan_occurrence in H.
      cbn [append startswith] in H.
      destruct (Ascii.eqb x n0); discriminate.
    + rewrite (replace_scan_char _ _ _ _ _ Hst) in H.
      cbn [startswith] in *. apply andb_true_iff in H.
      destruct H as [Hc H]. rewrite Hc. simpl. now apply IH.
Qed.

Lemma substitution_leaves_no_word_limit (s : string) :
  contains "<WORD_LIMIT>" (replace "<WORD_LIMIT>" (String n0 new') s)
    = false.
Proof.
  unfold replace.
  apply (replace_scan_ind _ _ _
           (fun _ r => contains "<WORD_LIMIT>" r = false)).
  - reflexivity.
  - intros rest IH. now rewrite (contains_after_plain _ _ _ new_is_plain).
  - intros c s' Hst IH. cbn [contains]. rewrite IH, orb_false_r.
    destruct (startswith "<WORD_LIMIT>"
                (String c
                   (replace_scan "<WORD_LIMIT>" (String n0 new') 0 s')))
      eqn:H; [|reflexivity].
    rewrite <- Hst. cbn [startswith] in *.
    apply andb_true_iff in H. destruct H as [Hc H]. rewrite Hc. simpl.
    symmetry. apply startswith_after_substitution; [|exact H].
    simpl in new_chars. apply andb_true_iff in new_chars.
    now apply digit_or_minus_cases.
Qed.

Lemma substitution_keeps_task (s : string) :
  contains "<TASK>" s = true ->
  contains "<TASK>" (replace "<WORD_LIMIT>" (String n0 new') s) = true.
Proof.
  unfold replace.
  apply (replace_scan_ind _ _ _
           (fun s r => contains "<TASK>" s = true ->
                       contains "<TASK>" r = true)).
  - discriminate.
  - intros rest IH H. cbn in H.
    rewrite (contains_after_plain _ _ _ new_is_plain). now apply IH.
  - intros c s' _ IH H. cbn [contains] in H. apply orb_true_iff in H.
    destruct H as [H|H].
    + destruct (startswith_split _ _ H) as [post Hpost].
      cbn [append] in Hpost. injection Hpost as -> ->.
      cbn. now rewrite startswith_nil.
    + cbn [contains]. rewrite (IH H). apply orb_true_r.
Qed.

End WordLimit.

Section WordLimitConstruction.
Context {E : Env}.

(** X13.  Constructed without a template, with the template file
    readable: when [str(word_limit)] returns (no limit on digits is
    set, or the word limit has no more digits than the limit), the
    agent stores the text of the file with every [<WORD_LIMIT>] replaced
    by the decimal print of the word limit, no [<WORD_LIMIT>] is left in
    it and a [<TASK>] of the file is still in it; when the word limit
    has more digits than the limit set, construction raises
    [ValueError]. *)
Theorem word_limit_substituted (model0 : ModeType) (cfg : option Config)
    (path text : string) (word_limit : Z) :
  read_file path = Some text ->
  (int_max_str_digits = 0 \/
   decimal_digits word_limit <= int_max_str_digits ->
   exists a,
     TaskSpecifyAgent_init model0 cfg None path word_limit = Return a /\
     task_specify_prompt a =
       replace "<WORD_LIMIT>" (decimal word_limit) text /\
     contains "<WORD_LIMIT>" (task_specify_prompt a) = false /\
     (contains "<TASK>" text = true ->
      contains "<TASK>" (task_specify_prompt a) = true)) /\
  (0 < int_max_str_digits < decimal_digits word_limit ->
   TaskSpecifyAgent_init model0 cfg None path word_limit = Raise ValueError).
Proof.
  intros Hfile. unfold TaskSpecifyAgent_init. rewrite Hfile. split.
  - intros Hok. rewrite str_within_limit by now right.
    eexists. split; [reflexivity|]. cbn [task_specify_prompt].
    split; [reflexivity|].
    destruct (decimal_chars word_limit) as [Hchars Hne].
    destruct (decimal word_limit) as [|n0 new']; [contradiction|].
    split.
    + now apply substitution_leaves_no_word_limit.
    + now apply substitution_keeps_task.
  - intros [Hpos Hover]. unfold str.
    apply Z.ltb_lt in Hpos, Hover. now rewrite Hpos, Hover.
Qed.

End WordLimitConstruction.

(** * The requests an agent sends *)

Section Requests.
Context {E : Env}.

(** The requests one [step] adds to the log: one per attempt that was
    under budget, each with one more copy of the incoming message. *)
Lemma retry_loop_step_calls (k : nat) (m : Msg.t) (a : ChatAgent)
    (w : World) :
  exists j,
    (j <= S k)%nat /\
    calls (snd (retry_loop 60 k (step_body m) a w)) =
      calls w ++
      map (fun i =>
             mkRequest (ModeType_value (model a))
               (map to_openai_message (stored_messages a ++ repeat m (S i)))
               (model_config a))
        (seq 0 j) /\
    (Forall (fun d => d = 60) (sleeps w) ->
     Forall (fun d => d = 60)
       (sleeps (snd (retry_loop 60 k (step_body m) a w)))).
Proof.
  revert a w. induction k as [|k IH]; intros a w; cbn [retry_loop];
    split_attempt m a w H c; cbn [fst snd];
    try (exists 0%nat; split; [lia|]; split;
         [simpl; now rewrite app_nil_r|simpl; tauto]);
    try (exists 1%nat; split; [lia|]; split; [reflexivity|simpl; tauto]).
  destruct (IH (set_stored_messages (stored_messages a ++ [m]) a)
              (sleep 60 (mkWorld (calls w ++ [turn_request a m]) (sleeps w))))
    as (j & Hj & Hcalls & Hsleeps).
  exists (S j). split; [lia|]. split.
  - rewrite Hcalls. unfold sleep. cbn [calls]. rewrite <- app_assoc. f_equal.
    change (seq 0 (S j)) with (0%nat :: seq 1 j).
    rewrite <- seq_shift, map_cons, map_map. cbn [app]. f_equal.
    apply map_ext. intros i.
    cbn [set_stored_messages stored_messages model model_config].
    now rewrite <- app_assoc.
  - intros Hw. apply Hsleeps. unfold sleep. cbn [sleeps].
    apply Forall_app. split; [exact Hw|]. now constructor.
Qed.

Lemma apply_op_requests (op : Op) (a : ChatAgent) (w : World) :
  (exists tl, stored_messages a = system_message a :: tl) ->
  Forall (request_of a) (calls w) ->
  Forall (fun d => d = 60) (sleeps w) ->
  Forall (request_of a) (calls (snd (apply_op op (a, w)))) /\
  Forall (fun d => d = 60) (sleeps (snd (apply_op op (a, w)))).
Proof.
  intros [tl Htl] Hcalls Hsleeps. destruct op as [m|m|]; simpl;
    try (now split).
  unfold step, retry. cbn [Nat.pred].
  destruct (retry_loop_step_calls 4 m a w) as (j & _ & Hnew & Hsl).
  split; [|now apply Hsl].
  rewrite Hnew. apply Forall_app. split; [exact Hcalls|].
  apply Forall_forall. intros r Hr. apply in_map_iff in Hr.
  destruct Hr as [i [<- _]]. rewrite Htl. now repeat split.
Qed.

Lemma request_of_same_setup (a b : ChatAgent) (r : Request) :
  same_setup a b -> request_of a r -> request_of b r.
Proof.
  intros (Hsm & _ & _ & Hm & Hc & _) (H1 & H2 & H3).
  unfold request_of. now rewrite Hsm, Hm, Hc.
Qed.

(** X14.  Every request an agent sends in its life, through any sequence
    of [step], [update_messages] and [reset], names the model and
    carries the generation configuration construction stored (the one
    given when it is truthy, the default one when none is given or the
    one given is falsy), and its first message is the rendering of the
    system message; every delay slept is of 60. *)
Theorem requests_of_an_agent (sm : Msg.t) (model0 : ModeType)
    (cfg : option Config) (ops : list Op) :
  Forall (fun r =>
            req_model r = ModeType_value model0 /\
            req_config r =
              match cfg with
              | Some c => if Config_truthy c then c else ChatGPTConfig
              | None => ChatGPTConfig
              end /\
            hd_error (req_messages r) = Some (to_openai_message sm))
    (calls (snd (apply_ops ops (ChatAgent_init sm model0 cfg, World0)))) /\
  Forall (fun d => d = 60)
    (sleeps (snd (apply_ops ops (ChatAgent_init sm model0 cfg, World0)))).
Proof.
  assert (Hgen : forall ops (st : ChatAgent * World),
            (exists tl, stored_messages (fst st) =
                          system_message (fst st) :: tl) ->
            Forall (request_of (fst st)) (calls (snd st)) ->
            Forall (fun d => d = 60) (sleeps (snd st)) ->
            Forall (request_of (fst st)) (calls (snd (apply_ops ops st))) /\
            Forall (fun d => d = 60) (sleeps (snd (apply_ops ops st)))).
  { clear. induction ops as [|op ops IH]; intros [a w] Hhd Hc Hs.
    - now split.
    - unfold apply_ops in *. cbn [fold_left]. cbn [fst snd] in *.
      destruct (apply_op_requests op a w Hhd Hc Hs) as [Hc1 Hs1].
      destruct (apply_op_keeps_head op a w Hhd) as [Hsm1 Hhd1].
      pose proof (apply_ops_same_setup [op] a w) as Hsetup.
      unfold apply_ops in Hsetup. cbn [fold_left] in Hsetup.
      destruct (apply_op op (a, w)) as [a1 w1]. cbn [fst snd] in *.
      destruct (IH (a1, w1)) as [Hc2 Hs2]; cbn [fst snd].
      + now rewrite Hsm1.
      + eapply Forall_impl; [|exact Hc1].
        intros r. now apply request_of_same_setup.
      + exact Hs1.
      + split; [|exact Hs2].
        eapply Forall_impl; [|exact Hc2]. intros r.
        apply request_of_same_setup.
        destruct Hsetup as (H1 & H2 & H3 & H4 & H5 & H6).
        now repeat split. }
  destruct (Hgen ops (ChatAgent_init sm model0 cfg, World0)) as [Hc Hs].
  - now exists [].
  - constructor.
  - constructor.
  - split; [|exact Hs]. exact Hc.
Qed.

End Requests.

(** * The further statements at concrete agents *)

Section MoreRuns.
Local Open Scope string_scope.

Lemma step_raises_after_five_attempts_witness :
  fst (fst (step hello (doctor_agent env_down GPT_3_5_TURBO) World0)) =
    Raise (RetryError (ServiceError "APIConnectionError")) /\
  sleeps (snd (step hello (doctor_agent env_down GPT_3_5_TURBO) World0)) =
    [60; 60; 60; 60] /\
  stored_messages
    (snd (fst (step hello (doctor_agent env_down GPT_3_5_TURBO) World0))) =
    [doctor; hello; hello; hello; hello; hello] /\
  terminated
    (snd (fst (step hello (doctor_agent env_down GPT_3_5_TURBO) World0))) =
    false.
Proof.
  destruct (step_raises_after_five_attempts (E:=env_down) hello
              (doctor_agent env_down GPT_3_5_TURBO) World0
              (RetryError (ServiceError "APIConnectionError")))
    as (_ & Hsl & _ & Hst & Hterm); [vm_compute; reflexivity|].
  split; [vm_compute; reflexivity|].
  split; [exact Hsl|]. split; [exact Hst|exact Hterm].
Defined.

Lemma step_return_shape_witness :
  fst (fst (step hello (doctor_agent env_roomy GPT_3_5_TURBO) World0)) =
    Return ([ChatMessage "doctor" ASSISTANT "assistant" "Hi."], false,
            {| info_id := Some "chatcmpl-1";
               info_usage := Some [("total_tokens", 9)];
               info_finish_reasons := ["stop"];
               info_num_tokens := 23 |}) /\
  exists transcript,
    stored_messages
      (snd (fst (step hello (doctor_agent env_roomy GPT_3_5_TURBO) World0)))
      = (transcript ++
         [ChatMessage "doctor" ASSISTANT "assistant" "Hi."])%list.
Proof.
  split; [vm_compute; reflexivity|].
  destruct (step_return_shape (E:=env_roomy) hello
              (doctor_agent env_roomy GPT_3_5_TURBO) World0
              [ChatMessage "doctor" ASSISTANT "assistant" "Hi."] false
              {| info_id := Some "chatcmpl-1";
                 info_usage := Some [("total_tokens", 9)];
                 info_finish_reasons := ["stop"];
                 info_num_tokens := 23 |})
    as [(Hnil & _)
       |(_ & _ & _ & _ & _ & _ & first & others & tr & Hms & Hst)];
    [vm_compute; reflexivity|discriminate Hnil|].
  injection Hms as <- _. now exists tr.
Defined.

Lemma step_without_candidates_witness :
  (forall i, (i <= 4)%nat ->
     @num_tokens_from_messages env_empty
       (map to_openai_message
          (stored_messages (doctor_agent env_empty GPT_3_5_TURBO) ++
           repeat hello (S i))%list)
       (model (doctor_agent env_empty GPT_3_5_TURBO)) <
       model_token_limit (doctor_agent env_empty GPT_3_5_TURBO) /\
     exists response,
       @ChatCompletion_create env_empty
         (List.length (calls (@World0 env_empty)) + i)
         (ModeType_value (model (doctor_agent env_empty GPT_3_5_TURBO)))
         (map to_openai_message
            (stored_messages (doctor_agent env_empty GPT_3_5_TURBO) ++
             repeat hello (S i))%list)
         (model_config (doctor_agent env_empty GPT_3_5_TURBO))
         = inr response /\
       response_choices response = []) /\
  fst (fst (step hello (doctor_agent env_empty GPT_3_5_TURBO) World0)) =
    Raise (RetryError IndexError) /\
  List.length
    (calls (snd (step hello (doctor_agent env_empty GPT_3_5_TURBO) World0)))
    = 5%nat.
Proof.
  assert (Hall : forall i, (i <= 4)%nat ->
     @num_tokens_from_messages env_empty
       (map to_openai_message
          (stored_messages (doctor_agent env_empty GPT_3_5_TURBO) ++
           repeat hello (S i))%list)
       (model (doctor_agent env_empty GPT_3_5_TURBO)) <
       model_token_limit (doctor_agent env_empty GPT_3_5_TURBO) /\
     exists response,
       @ChatCompletion_create env_empty
         (List.length (calls (@World0 env_empty)) + i)
         (ModeType_value (model (doctor_agent env_empty GPT_3_5_TURBO)))
         (map to_openai_message
            (stored_messages (doctor_agent env_empty GPT_3_5_TURBO) ++
             repeat hello (S i))%list)
         (model_config (doctor_agent env_empty GPT_3_5_TURBO))
         = inr response /\
       response_choices response = []).
  { intros i Hi.
    destruct i as [|[|[|[|[|i]]]]]; try (exfalso; lia);
      (split; [vm_compute; reflexivity|eexists; split; reflexivity]). }
  split; [exact Hall|].
  destruct (step_without_candidates (E:=env_empty) hello
              (doctor_agent env_empty GPT_3_5_TURBO) World0 Hall)
    as (Hraise & Hcalls & _).
  split; [exact Hraise|exact Hcalls].
Defined.

Lemma specify_task_returns_witness :
  specify_task_tokens
    (specifier env_file GPT_3_5_TURBO "Task: <TASK>. Reply in 50 words.")
    "X" <
    model_token_limit
      (super (specifier env_file GPT_3_5_TURBO
                "Task: <TASK>. Reply in 50 words.")) /\
  exists a' w',
    specify_task "X"
      (specifier env_file GPT_3_5_TURBO "Task: <TASK>. Reply in 50 words.")
      World0 = (Return "Hi.", a', w') /\
    terminated (super a') = false /\
    stored_messages (super a') =
      [task_specifier_system_message;
       UserChatMessage "task_specifier" "Task: X. Reply in 50 words.";
       ChatMessage "task_specifier" ASSISTANT "assistant" "Hi."] /\
    task_specify_prompt a' = "Task: X. Reply in 50 words.".
Proof.
  split; [vm_compute; reflexivity|].
  destruct (specify_task_returns (E:=env_file) "X"
              (specifier env_file GPT_3_5_TURBO
                 "Task: <TASK>. Reply in 50 words.") World0
              (mkResponse "chatcmpl-1" [("total_tokens", 9)] [reply "Hi."])
              (reply "Hi.") [])
    as (a' & Hrun & Hterm & Hst & Hprompt);
    [vm_compute; reflexivity|reflexivity|reflexivity|].
  exists a'. eexists. split; [exact Hrun|].
  split; [exact Hterm|]. split; [exact Hst|exact Hprompt].
Defined.

Lemma specify_task_without_placeholder_witness :
  contains "<TASK>"
    (task_specify_prompt (specifier env_file GPT_3_5_TURBO plain_template))
    = false /\
  specify_task "X" (specifier env_file GPT_3_5_TURBO plain_template) World0 =
    specify_task long_task (specifier env_file GPT_3_5_TURBO plain_template)
      World0 /\
  task_specify_prompt
    (snd (fst (specify_task "X"
                 (specifier env_file GPT_3_5_TURBO plain_template) World0)))
    = plain_template.
Proof.
  destruct (specify_task_without_placeholder (E:=env_file)
              (specifier env_file GPT_3_5_TURBO plain_template) World0
              eq_refl "X")
    as (_ & Hsame & Hkeep).
  split; [reflexivity|]. split; [exact (Hsame long_task)|exact Hkeep].
Defined.

Lemma word_limit_substituted_witness :
  @read_file env_file default_task_specify_prompt_path =
    Some "Task: <TASK>. Reply in <WORD_LIMIT> words." /\
  (exists a,
     TaskSpecifyAgent_init (E:=env_file) GPT_3_5_TURBO None None
       default_task_specify_prompt_path 120 = Return a /\
     task_specify_prompt a = "Task: <TASK>. Reply in 120 words." /\
     contains "<WORD_LIMIT>" (task_specify_prompt a) = false) /\
  TaskSpecifyAgent_init (E:=env_file) GPT_3_5_TURBO None None
    default_task_specify_prompt_path (10 ^ 4300) = Raise ValueError.
Proof.
  split; [reflexivity|].
  destruct (word_limit_substituted (E:=env_file) GPT_3_5_TURBO None
              default_task_specify_prompt_path
              "Task: <TASK>. Reply in <WORD_LIMIT> words." 120 eq_refl)
    as [Hreturns _].
  destruct Hreturns as (a & Hinit & Hprompt & Hgone & _);
    [right; vm_compute; discriminate|].
  destruct (word_limit_substituted (E:=env_file) GPT_3_5_TURBO None
              default_task_specify_prompt_path
              "Task: <TASK>. Reply in <WORD_LIMIT> words." (10 ^ 4300)
              eq_refl)
    as [_ Hraises].
  split.
  - exists a. split; [exact Hinit|]. split; [exact Hprompt|exact Hgone].
  - apply Hraises. split; vm_compute; reflexivity.
Defined.

(** A configuration given but falsy is replaced by the default one, a
    truthy one is kept. *)
Example falsy_configuration_replaced :
  model_config (ChatAgent_init (E:=env_roomy) doctor GPT_3_5_TURBO (Some []))
    = [("n", 1)] /\
  model_config
    (ChatAgent_init (E:=env_roomy) doctor GPT_3_5_TURBO
       (Some [("temperature", 1)])) = [("temperature", 1)] /\
  model_config (ChatAgent_init (E:=env_roomy) doctor GPT_3_5_TURBO None)
    = [("n", 1)].
Proof. repeat split. Qed.

(** The assertion on [str(assistant)] that [chat_agent.py] runs. *)
Example repr_of_doctor :
  ChatAgent_repr (E:=env_roomy) str_DemoModel
    (doctor_agent env_roomy GPT_3_5_TURBO) =
  "ChatAgent(doctor, RoleType.ASSISTANT, ModeType.GPT_3_5_TURBO)".
Proof. reflexivity. Qed.

End MoreRuns.
